(** * The inference HTTP client ([clients/http/client.py])

    A shallow embedding of [InferenceHTTPClient]: the session state, the
    registry operations, the two inference protocols (legacy and new), the
    error-translation decorator [wrap_errors], the result unwrapper and the
    streaming generator [predict_on_stream].

    Python values are modelled by [pyval]; dictionaries are finite maps
    ([gmap string pyval]).  A method is a computation in the monad [M]: it
    reads and writes the client object ([self]) and the list of HTTP
    requests issued so far ([sent]), and returns a value or raises an
    exception ([result]).  A mutation of [self] made before an exception is
    raised stays, as in Python. *)

From Stdlib Require Import ZArith Ascii String List Lia.
From stdpp Require Import gmap strings list.

Local Open Scope string_scope.
Local Open Scope list_scope.
Local Open Scope Z_scope.

(** ** Python values *)

(** JSON documents and the other values the client handles.  [PImage] is a
    decoded visualisation (bytes, a numpy array or a PIL image, by the
    configured output format); its content is left uninterpreted. *)
Unset Elimination Schemes.
Inductive pyval : Type :=
| PNone
| PBool (b : bool)
| PInt (z : Z)
| PFloat (literal : string)
| PStr (s : string)
| PList (items : list pyval)
| PDict (entries : gmap string pyval)
| PImage (repr : string).
Set Elimination Schemes.

(** [type(v).__name__], for the messages of attribute errors. *)
Definition py_type_name (v : pyval) : string :=
  match v with
  | PNone => "NoneType"
  | PBool _ => "bool"
  | PInt _ => "int"
  | PFloat _ => "float"
  | PStr _ => "str"
  | PList _ => "list"
  | PDict _ => "dict"
  | PImage _ => "bytes"
  end.

(** [a or b] on [Optional[str]]: [None] and the empty string are falsy. *)
Definition py_or (a b : option string) : option string :=
  match a with
  | Some s => if decide (s = "") then b else Some s
  | None => b
  end.

(** [str(x)] inside an f-string, for an [Optional[str]]. *)
Definition py_str (o : option string) : string :=
  match o with
  | Some s => s
  | None => "None"
  end.

(** [needle in hay] for two strings: substring test. *)
Fixpoint str_contains (needle hay : string) : bool :=
  String.prefix needle hay ||
  match hay with
  | EmptyString => false
  | String _ rest => str_contains needle rest
  end.

(** [s.split(sep)] for a one-character separator: the segments between the
    separators, empty ones included; never the empty list. *)
Fixpoint str_split (sep : ascii) (s : string) : list string :=
  match s with
  | EmptyString => [EmptyString]
  | String c rest =>
      if decide (c = sep) then EmptyString :: str_split sep rest
      else match str_split sep rest with
           | seg :: segs => String c seg :: segs
           | [] => [String c EmptyString]
           end
  end.

(** Number of occurrences of a character in a string. *)
Fixpoint count_char (c : ascii) (s : string) : nat :=
  match s with
  | EmptyString => 0%nat
  | String c' rest =>
      if decide (c' = c) then S (count_char c rest) else count_char c rest
  end.

(** [str.lower()] on ASCII letters. *)
Definition ascii_lower (c : ascii) : ascii :=
  let n := nat_of_ascii c in
  if ((65 <=? n) && (n <=? 90))%nat then ascii_of_nat (n + 32) else c.

Fixpoint str_lower (s : string) : string :=
  match s with
  | EmptyString => EmptyString
  | String c rest => String (ascii_lower c) (str_lower rest)
  end.

(** ** HTTP requests, responses and exceptions *)

Inductive HTTPMethod := GET | POST.

(** The arguments of one [requests.get] or [requests.post] call. *)
Record Request := mkRequest {
  req_method : HTTPMethod;
  req_url : string;
  req_headers : gmap string string;
  req_params : gmap string pyval;
  req_json : option pyval;
  req_data : option string;
}.

(** A [requests.Response].  [headers] is the store of the case-insensitive
    header dictionary, keyed by the lower-cased header name.  [json] is the
    outcome of [response.json()]: [None] when the body does not decode. *)
Record Response := mkResponse {
  status_code : Z;
  headers : gmap string string;
  content : string;
  text : string;
  json : option pyval;
}.

(** [response.headers.get(name)]. *)
Definition headers_get (name : string) (r : Response) : option string :=
  headers r !! str_lower name.

(** The exception classes the client raises, catches or lets through.
    [HTTPError] is the class the module imports from [requests];
    [ConnectionError] is the built-in class, the one the name denotes in the
    module, which imports no other; an exception of any other class is an
    [OtherException]. *)
Inductive exn : Type :=
| HTTPError (description : string) (response : Response)
| ConnectionError (description : string)
| HTTPCallErrorError (description : string) (status : Z) (api_message : pyval)
| HTTPClientError (message : string)
| InvalidModelIdentifier (message : string)
| AttributeError (message : string)
| TypeError (message : string)
| OtherException (class_name message : string).

(** [str(error)]. *)
Definition exn_str (e : exn) : string :=
  match e with
  | HTTPError d _ => d
  | ConnectionError d => d
  | HTTPCallErrorError d _ _ => d
  | HTTPClientError m => m
  | InvalidModelIdentifier m => m
  | AttributeError m => m
  | TypeError m => m
  | OtherException _ m => m
  end.

(** A value, or a raised exception. *)
Inductive result (A : Type) : Type :=
| Ok (a : A)
| Raise (e : exn).
Arguments Ok {A} a.
Arguments Raise {A} e.

Definition result_bind {A B} (r : result A) (k : A -> result B) : result B :=
  match r with
  | Ok a => k a
  | Raise e => Raise e
  end.

(** [v.get(key)]: defined on dictionaries only; a missing key gives
    [None]. *)
Definition py_get (v : pyval) (key : string) : result pyval :=
  match v with
  | PDict d => Ok (default PNone (d !! key))
  | _ => Raise (AttributeError
                  ("'" +:+ py_type_name v +:+ "' object has no attribute 'get'"))
  end.

(** [v[key]]. *)
Definition py_getitem (v : pyval) (key : string) : result pyval :=
  match v with
  | PDict d =>
      match d !! key with
      | Some x => Ok x
      | None => Raise (OtherException "KeyError" key)
      end
  | _ => Raise (TypeError
                  ("'" +:+ py_type_name v +:+ "' object is not subscriptable"))
  end.

(** [v[key] = x]. *)
Definition py_setitem (v : pyval) (key : string) (x : pyval) : result pyval :=
  match v with
  | PDict d => Ok (PDict (<[key := x]> d))
  | _ => Raise (TypeError
                  ("'" +:+ py_type_name v
                   +:+ "' object does not support item assignment"))
  end.

(** An [Optional[str]] as a Python value. *)
Definition py_of_option (o : option string) : pyval :=
  match o with
  | Some s => PStr s
  | None => PNone
  end.

(** ** Entities ([clients/http/entities.py]) *)

Inductive HTTPClientMode := NEW | LEGACY.

(** The members the endpoint table is keyed by.  The [model_type] arguments
    of the client are taken to be members of the enumeration; a member is
    truthy, so [model_type or self.__model_type] is the argument when there
    is one. *)
Inductive ModelType := INSTANCE_SEGMENTATION | OBJECT_DETECTION | CLASSIFICATION.

#[global] Instance HTTPClientMode_eq_dec : EqDecision HTTPClientMode.
Proof. solve_decision. Defined.

#[global] Instance ModelType_eq_dec : EqDecision ModelType.
Proof. solve_decision. Defined.

Definition SUCCESSFUL_STATUS_CODE : Z := 200.

Definition DEFAULT_HEADERS : gmap string string :=
  {[ "Content-Type" := "application/json" ]}.

Definition NEW_INFERENCE_ENDPOINTS (t : ModelType) : string :=
  match t with
  | INSTANCE_SEGMENTATION => "/infer/instance_segmentation"
  | OBJECT_DETECTION => "/infer/object_detection"
  | CLASSIFICATION => "/infer/classification"
  end.

(** What the client imports and the server it talks to.  The entity
    classes, the loaders and the post-processing helpers are used through
    these signatures only; [server] gives the outcome of a request from the
    requests issued before it: a response, or the exception [requests]
    raises when the exchange fails. *)
Class Environment := {
  (* clients.http.entities *)
  ImagesReference : Type;
  InferenceConfiguration : Type;
  VisualisationFormat : Type;
  ServerInfo : Type;
  RegisteredModels : Type;
  init_default : InferenceConfiguration;
  image_extensions_for_directory_scan : InferenceConfiguration -> list string;
  output_visualisation_format : InferenceConfiguration -> VisualisationFormat;
  to_legacy_call_parameters : InferenceConfiguration -> gmap string pyval;
  to_api_call_parameters :
    InferenceConfiguration -> HTTPClientMode -> ModelType -> gmap string pyval;
  ServerInfo_from_dict : pyval -> result ServerInfo;
  RegisteredModels_from_dict : pyval -> result RegisteredModels;
  (* clients.http.utils.loaders *)
  load_static_inference_input :
    ImagesReference + list ImagesReference -> result (list string);
  load_stream_inference_input : string -> list string -> list ImagesReference;
  (* clients.http.utils.post_processing *)
  response_contains_jpeg_image : Response -> bool;
  transform_visualisation_bytes : string -> VisualisationFormat -> result pyval;
  transform_base64_visualisation : pyval -> VisualisationFormat -> result pyval;
  (* requests *)
  http_error_msg : Response -> string;
  server : list Request -> Request -> result Response;
}.

Section Client.
Context {env : Environment}.

(** ** The client object and the machine it runs on *)

Record InferenceHTTPClient := mkClient {
  api_url : string;
  api_key : string;
  inference_configuration : InferenceConfiguration;
  client_mode : HTTPClientMode;
  model_type : ModelType;
  selected_model : option string;
}.

(** [InferenceHTTPClient.__init__]. *)
Definition init (url key : string) (mode : HTTPClientMode)
  : InferenceHTTPClient :=
  {| api_url := url;
     api_key := key;
     inference_configuration := init_default;
     client_mode := mode;
     model_type := OBJECT_DETECTION;
     selected_model := None |}.

Definition configure (c : InferenceHTTPClient)
    (configuration : InferenceConfiguration) : InferenceHTTPClient :=
  {| api_url := api_url c;
     api_key := api_key c;
     inference_configuration := configuration;
     client_mode := client_mode c;
     model_type := model_type c;
     selected_model := selected_model c |}.

Definition set_client_mode (c : InferenceHTTPClient) (mode : HTTPClientMode)
  : InferenceHTTPClient :=
  {| api_url := api_url c;
     api_key := api_key c;
     inference_configuration := inference_configuration c;
     client_mode := mode;
     model_type := model_type c;
     selected_model := selected_model c |}.

Definition use_legacy_client (c : InferenceHTTPClient) : InferenceHTTPClient :=
  set_client_mode c LEGACY.

Definition use_new_client (c : InferenceHTTPClient) : InferenceHTTPClient :=
  set_client_mode c NEW.

(** The two assignments [self.__selected_model = ...] and
    [self.__model_type = ...], which always come together. *)
Definition set_selection (c : InferenceHTTPClient)
    (id : option string) (type : ModelType) : InferenceHTTPClient :=
  {| api_url := api_url c;
     api_key := api_key c;
     inference_configuration := inference_configuration c;
     client_mode := client_mode c;
     model_type := type;
     selected_model := id |}.

Definition use_model (c : InferenceHTTPClient)
    (model_id : string) (type : ModelType) : InferenceHTTPClient :=
  set_selection c (Some model_id) type.

(** The client object together with every request issued so far, oldest
    first. *)
Record Machine := mkMachine {
  self : InferenceHTTPClient;
  sent : list Request;
}.

Definition M (A : Type) : Type := Machine -> result A * Machine.

Definition ret {A} (a : A) : M A := fun m => (Ok a, m).

Definition raise {A} (e : exn) : M A := fun m => (Raise e, m).

Definition bind {A B} (c : M A) (k : A -> M B) : M B :=
  fun m =>
    match c m with
    | (Ok a, m') => k a m'
    | (Raise e, m') => (Raise e, m')
    end.

Definition lift {A} (r : result A) : M A := fun m => (r, m).

Definition get_self : M InferenceHTTPClient := fun m => (Ok (self m), m).

Definition set_self (c : InferenceHTTPClient) : M unit :=
  fun m => (Ok tt, {| self := c; sent := sent m |}).

End Client.

Notation "'let*' x := c 'in' k" := (bind c (fun x => k))
  (at level 10, x name, c at level 100, k at level 200).

Notation "'let?' x := c 'in' k" := (result_bind c (fun x => k))
  (at level 10, x name, c at level 100, k at level 200).

Section Methods.
Context {env : Environment}.

(** ** The [requests] library *)

(** One HTTP exchange: the request is recorded, the server answers. *)
Definition send (rq : Request) : M Response :=
  fun m => (server (sent m) rq, {| self := self m; sent := sent m ++ [rq] |}).

(** [requests.get(url)]. *)
Definition requests_get (url : string) : M Response :=
  send (mkRequest GET url ∅ ∅ None None).

(** [requests.post(url, json=..., headers=..., params=..., data=...)]. *)
Definition requests_post (url : string) (headers : gmap string string)
    (params : gmap string pyval) (json : option pyval) (data : option string)
  : M Response :=
  send (mkRequest POST url headers params json data).

(** [response.raise_for_status()]: [requests] raises [HTTPError] for the
    client-error and server-error statuses, 400 to 599, and for no other. *)
Definition raise_for_status (response : Response) : result unit :=
  if (400 <=? status_code response) && (status_code response <? 600)
  then Raise (HTTPError (http_error_msg response) response)
  else Ok tt.

(** [response.json()]. *)
Definition response_json (response : Response) : result pyval :=
  match json response with
  | Some v => Ok v
  | None => Raise (OtherException "JSONDecodeError" (text response))
  end.

(** ** [wrap_errors] *)

(** The body of [except HTTPError as error]: the exception that leaves the
    handler.  It is the [HTTPCallErrorError] the handler builds, unless
    computing the message raises first. *)
Definition translate_http_error (error : exn) (response : Response) : exn :=
  match headers_get "Content-Type" response with
  | None => TypeError "argument of type 'NoneType' is not iterable"
  | Some content_type =>
      match
        (if str_contains "application/json" content_type
         then (let? payload := response_json response in
               py_get payload "message")
         else Ok (PStr (text response)))
      with
      | Ok api_message =>
          HTTPCallErrorError (exn_str error) (status_code response) api_message
      | Raise e => e
      end
  end.

(** The two [except] clauses of the decorator, tried in order; any other
    exception passes through. *)
Definition translate_error (error : exn) : exn :=
  match error with
  | HTTPError _ response => translate_http_error error response
  | ConnectionError _ =>
      HTTPClientError ("Error with server connection: " +:+ exn_str error)
  | _ => error
  end.

Definition wrap_errors {A} (function : M A) : M A :=
  fun m =>
    match function m with
    | (Ok a, m') => (Ok a, m')
    | (Raise error, m') => (Raise (translate_error error), m')
    end.

(** ** Registry operations *)

Definition get_server_info : M ServerInfo :=
  wrap_errors (
    let* c := get_self in
    let* response := requests_get (api_url c +:+ "/info") in
    let* _ := lift (raise_for_status response) in
    let* response_payload := lift (response_json response) in
    lift (ServerInfo_from_dict response_payload)).

Definition list_loaded_models : M RegisteredModels :=
  wrap_errors (
    let* c := get_self in
    let* response := requests_get (api_url c +:+ "/model/registry") in
    let* _ := lift (raise_for_status response) in
    let* response_payload := lift (response_json response) in
    lift (RegisteredModels_from_dict response_payload)).

Definition load_model (model_id : string) (type : ModelType)
    (set_as_default : bool) : M RegisteredModels :=
  wrap_errors (
    let* c := get_self in
    let* response :=
      requests_post (api_url c +:+ "/model/add") DEFAULT_HEADERS ∅
        (Some (PDict {[ "model_id" := PStr model_id;
                        "api_key" := PStr (api_key c) ]}))
        None in
    let* _ := lift (raise_for_status response) in
    let* response_payload := lift (response_json response) in
    let* _ := (if set_as_default
          then set_self (set_selection c (Some model_id) type)
          else ret tt) in
    lift (RegisteredModels_from_dict response_payload)).

Definition unload_model (model_id : string) : M RegisteredModels :=
  wrap_errors (
    let* c := get_self in
    let* response :=
      requests_post (api_url c +:+ "/model/remove") DEFAULT_HEADERS ∅
        (Some (PDict {[ "model_id" := PStr model_id ]}))
        None in
    let* _ := lift (raise_for_status response) in
    let* response_payload := lift (response_json response) in
    let* _ := (if decide (Some model_id = selected_model c)
          then set_self (set_selection c None OBJECT_DETECTION)
          else ret tt) in
    lift (RegisteredModels_from_dict response_payload)).

Definition unload_all_models : M RegisteredModels :=
  wrap_errors (
    let* c := get_self in
    let* response := requests_post (api_url c +:+ "/model/clear") ∅ ∅ None None in
    let* _ := lift (raise_for_status response) in
    let* response_payload := lift (response_json response) in
    let* _ := set_self (set_selection c None OBJECT_DETECTION) in
    lift (RegisteredModels_from_dict response_payload)).

(** ** Inference *)

Definition unwrap_single_element_list {T} (sequence : list T) : T + list T :=
  match sequence with
  | [x] => inl x
  | _ => inr sequence
  end.

(** What the legacy loop appends for one response that passed the status
    check (the [if response_contains_jpeg_image] statement). *)
Definition legacy_result (c : InferenceHTTPClient) (response : Response)
  : result pyval :=
  if response_contains_jpeg_image response
  then
    let? visualisation :=
      transform_visualisation_bytes (content response)
        (output_visualisation_format (inference_configuration c)) in
    Ok (PDict {[ "visualization" := visualisation ]})
  else response_json response.

(** The [for element in encoded_inference_inputs] loop of the legacy
    protocol; [results] is the list built so far. *)
Fixpoint legacy_loop (c : InferenceHTTPClient) (dataset version : string)
    (params : gmap string pyval) (elements : list string)
    (results : list pyval) : M (list pyval) :=
  match elements with
  | [] => ret results
  | element :: rest =>
      let* response :=
        requests_post (api_url c +:+ "/" +:+ dataset +:+ "/" +:+ version)
          DEFAULT_HEADERS params None (Some element) in
      let* _ := lift (raise_for_status response) in
      let* document := lift (legacy_result c response) in
      legacy_loop c dataset version params rest (results ++ [document])
  end.

Definition infer_from_legacy_api
    (inference_input : ImagesReference + list ImagesReference)
    (model_id : option string) : M (pyval + list pyval) :=
  let* c := get_self in
  let* encoded_inference_inputs :=
    lift (load_static_inference_input inference_input) in
  match py_or model_id (selected_model c) with
  | None => raise (AttributeError "'NoneType' object has no attribute 'split'")
  | Some model_id_to_be_used =>
      match str_split "/" model_id_to_be_used with
      | [dataset; version] =>
          let params :=
            to_legacy_call_parameters (inference_configuration c)
            ∪ {[ "api_key" := PStr (api_key c) ]} in
          let* results :=
            legacy_loop c dataset version params encoded_inference_inputs [] in
          ret (unwrap_single_element_list results)
      | _ =>
          raise (InvalidModelIdentifier
                   ("Invalid model identifier: " +:+ py_str model_id
                    +:+ " in use."))
      end
  end.

(** What the new loop appends for one response that passed the status
    check: the parsed body, its [visualization] entry decoded when it is
    there and not [None]. *)
Definition new_result (c : InferenceHTTPClient) (response : Response)
  : result pyval :=
  let? parsed_response := response_json response in
  let? entry := py_get parsed_response "visualization" in
  match entry with
  | PNone => Ok parsed_response
  | _ =>
      let? visualisation := py_getitem parsed_response "visualization" in
      let? decoded :=
        transform_base64_visualisation visualisation
          (output_visualisation_format (inference_configuration c)) in
      py_setitem parsed_response "visualization" decoded
  end.

(** The [for element in encoded_inference_inputs] loop of the new protocol.
    [payload] is one dictionary for the whole loop: each turn overwrites its
    [image] entry. *)
Fixpoint new_loop (c : InferenceHTTPClient) (endpoint : string)
    (payload : gmap string pyval) (elements : list string)
    (results : list pyval) : M (list pyval) :=
  match elements with
  | [] => ret results
  | element :: rest =>
      let payload :=
        <[ "image" := PDict {[ "type" := PStr "base64";
                               "value" := PStr element ]} ]> payload in
      let* response :=
        requests_post (api_url c +:+ endpoint) DEFAULT_HEADERS ∅
          (Some (PDict payload)) None in
      let* _ := lift (raise_for_status response) in
      let* parsed_response := lift (new_result c response) in
      new_loop c endpoint payload rest (results ++ [parsed_response])
  end.

Definition infer_from_new_api
    (inference_input : ImagesReference + list ImagesReference)
    (type : option ModelType) (model_id : option string)
  : M (pyval + list pyval) :=
  let* c := get_self in
  let* encoded_inference_inputs :=
    lift (load_static_inference_input inference_input) in
  let payload : gmap string pyval :=
    {[ "api_key" := PStr (api_key c);
       "model_id" := py_of_option (py_or model_id (selected_model c)) ]} in
  let model_type_in_use := default (model_type c) type in
  let endpoint := NEW_INFERENCE_ENDPOINTS model_type_in_use in
  let payload :=
    to_api_call_parameters (inference_configuration c) (client_mode c)
      model_type_in_use
    ∪ payload in
  let* results := new_loop c endpoint payload encoded_inference_inputs [] in
  ret (unwrap_single_element_list results).

Definition predict
    (inference_input : ImagesReference + list ImagesReference)
    (type : option ModelType) (model_id : option string)
  : M (pyval + list pyval) :=
  wrap_errors (
    let* c := get_self in
    match client_mode c with
    | LEGACY => infer_from_legacy_api inference_input model_id
    | NEW => infer_from_new_api inference_input type model_id
    end).

(** ** The streaming generator *)

(** The generator object [predict_on_stream] returns: not started yet,
    suspended at its [yield] with the frames the source has still to give,
    or finished. *)
Inductive Stream : Type :=
| Created (input_uri : string) (type : option ModelType)
    (model_id : option string)
| Suspended (frames : list ImagesReference) (type : option ModelType)
    (model_id : option string)
| Finished.

(** Calling the generator function runs none of its body. *)
Definition predict_on_stream (input_uri : string) (type : option ModelType)
    (model_id : option string) : Stream :=
  Created input_uri type model_id.

(** One turn of the [for frame in ...] loop, up to the [yield]: the value
    yielded ([None] for [StopIteration]) or the exception that ends the
    generator. *)
Definition resume (frames : list ImagesReference) (type : option ModelType)
    (model_id : option string) (m : Machine)
  : result (option (ImagesReference * (pyval + list pyval))) * Stream * Machine :=
  match frames with
  | [] => (Ok None, Finished, m)
  | frame :: rest =>
      match predict (inl frame) type model_id m with
      | (Ok prediction, m') =>
          (Ok (Some (frame, prediction)), Suspended rest type model_id, m')
      | (Raise e, m') => (Raise e, Finished, m')
      end
  end.

(** [next(generator)]. *)
Definition next (g : Stream) (m : Machine)
  : result (option (ImagesReference * (pyval + list pyval))) * Stream * Machine :=
  match g with
  | Created input_uri type model_id =>
      resume
        (load_stream_inference_input input_uri
           (image_extensions_for_directory_scan
              (inference_configuration (self m))))
        type model_id m
  | Suspended frames type model_id => resume frames type model_id m
  | Finished => (Ok None, Finished, m)
  end.

(** The first [n] calls of [next], one after the other, by a consumer that
    does nothing else in between. *)
Fixpoint pulls (n : nat) (g : Stream) (m : Machine)
  : list (result (option (ImagesReference * (pyval + list pyval))))
    * Stream * Machine :=
  match n with
  | O => ([], g, m)
  | S n' =>
      match next g m with
      | (outcome, g', m') =>
          match pulls n' g' m' with
          | (outcomes, g'', m'') => (outcome :: outcomes, g'', m'')
          end
      end
  end.

End Methods.

(** ** A concrete environment

    Images are referred to by name and encode to their name; a list of
    images encodes element by element.  A stream address is the
    comma-separated list of its frames.  The registry snapshot and the
    server information are the JSON payload itself.  The server is left as
    a parameter. *)

Definition sample_jpeg (response : Response) : bool :=
  match headers_get "Content-Type" response with
  | Some content_type => str_contains "image/jpeg" content_type
  | None => false
  end.

Definition sample_decode (visualisation : pyval) : result pyval :=
  match visualisation with
  | PStr s => Ok (PImage s)
  | _ => Raise (TypeError "a bytes-like object is required")
  end.

Definition sample_environment
    (srv : list Request -> Request -> result Response) : Environment :=
  {| ImagesReference := string;
     InferenceConfiguration := unit;
     VisualisationFormat := unit;
     ServerInfo := pyval;
     RegisteredModels := pyval;
     init_default := tt;
     image_extensions_for_directory_scan := fun _ => ["jpg"];
     output_visualisation_format := fun _ => tt;
     to_legacy_call_parameters := fun _ => {[ "confidence" := PInt 40 ]};
     to_api_call_parameters := fun _ _ _ => {[ "confidence" := PInt 40 ]};
     ServerInfo_from_dict := Ok;
     RegisteredModels_from_dict := Ok;
     load_static_inference_input :=
       fun input => Ok match input with inl image => [image] | inr images => images end;
     load_stream_inference_input := fun input_uri _ => str_split "," input_uri;
     response_contains_jpeg_image := sample_jpeg;
     transform_visualisation_bytes := fun bytes _ => Ok (PImage bytes);
     transform_base64_visualisation := fun visualisation _ => sample_decode visualisation;
     http_error_msg := fun _ => "HTTP error";
     server := srv |}.

(** A JSON response with the given status and document. *)
Definition json_response (status : Z) (document : pyval) : Response :=
  {| status_code := status;
     headers := {[ "content-type" := "application/json" ]};
     content := "";
     text := "";
     json := Some document |}.

(** A plain-text response with the given status and body. *)
Definition text_response (status : Z) (body : string) : Response :=
  {| status_code := status;
     headers := {[ "content-type" := "text/plain" ]};
     content := body;
     text := body;
     json := None |}.

(** A response with no header at all, whose body is the JSON document
    [{}]. *)
Definition bare_response (status : Z) : Response :=
  {| status_code := status;
     headers := ∅;
     content := "{}";
     text := "{}";
     json := Some (PDict ∅) |}.

(** A server that gives the same answer to every request. *)
Definition always (answer : result Response)
  : list Request -> Request -> result Response :=
  fun _ _ => answer.

(** A server that answers the [n]-th request it receives with the [n]-th
    response of a script, and cannot be reached once the script is over. *)
Definition scripted (script : list Response)
  : list Request -> Request -> result Response :=
  fun history _ =>
    match script !! length history with
    | Some response => Ok response
    | None => Raise (OtherException "requests.exceptions.ConnectionError"
                                    "connection refused")
    end.

(** A fresh machine: a client in the given mode, nothing sent yet. *)
Definition sample_machine (srv : list Request -> Request -> result Response)
    (mode : HTTPClientMode) (selected : option string)
  : @Machine (sample_environment srv) :=
  {| self := @mkClient (sample_environment srv)
               "http://host" "key" tt mode OBJECT_DETECTION selected;
     sent := [] |}.

(** The servers and environments of the examples. *)

Definition accepting : list Request -> Request -> result Response :=
  always (Ok (json_response 200 (PDict ∅))).

Definition not_found : Response :=
  json_response 404 (PDict {[ "message" := PStr "no such model" ]}).

Definition unavailable : Response := text_response 503 "try later".

(** Two documents of the new protocol: one with an encoded visualisation,
    one whose visualisation is [None]. *)
Definition visualised : gmap string pyval :=
  {[ "visualization" := PStr "aW1n"; "time" := PInt 3 ]}.

Definition not_visualised : gmap string pyval :=
  {[ "visualization" := PNone ]}.

Definition E_accepting : Environment := sample_environment accepting.

Definition E_not_found : Environment :=
  sample_environment (always (Ok not_found)).

Definition E_unavailable : Environment :=
  sample_environment (always (Ok unavailable)).

Definition E_bare (status : Z) : Environment :=
  sample_environment (always (Ok (bare_response status))).

Definition E_scripted (script : list Response) : Environment :=
  sample_environment (scripted script).

Definition E_unreachable : Environment := sample_environment (scripted []).

(** ** Notions the statements use *)

Section Notions.
Context {env : Environment}.

(** An exchange failed: [requests] raised instead of returning a response
    (transport failure), or the response has a status on which
    [raise_for_status] raises. *)
Definition exchange_failed (outcome : result Response) : Prop :=
  match outcome with
  | Raise _ => True
  | Ok response => exists error, raise_for_status response = Raise error
  end.

(** The session state with no default model: no identifier, and the
    category back to its initial value. *)
Definition cleared (c : InferenceHTTPClient) : InferenceHTTPClient :=
  set_selection c None OBJECT_DETECTION.

(** The format the specification gives for a legacy identifier: exactly two
    non-empty segments separated by one [/]. *)
Definition two_nonempty_segments (id : string) : Prop :=
  exists dataset version,
    id = dataset +:+ "/" +:+ version
    /\ dataset <> "" /\ version <> ""
    /\ count_char "/" dataset = 0%nat /\ count_char "/" version = 0%nat.

(** What a protocol appends to its results for one response. *)
Definition normalised (mode : HTTPClientMode) (c : InferenceHTTPClient)
    (response : Response) : result pyval :=
  match mode with
  | LEGACY => legacy_result c response
  | NEW => new_result c response
  end.

(** The encoded input a request of the given protocol carries: the request
    body (legacy), or the [value] of the [image] entry of the JSON payload
    (new). *)
Definition carried_input (mode : HTTPClientMode) (rq : Request)
  : option string :=
  match mode with
  | LEGACY => req_data rq
  | NEW =>
      match req_json rq with
      | Some (PDict payload) =>
          match payload !! "image" with
          | Some (PDict image) =>
              match image !! "value" with
              | Some (PStr element) => Some element
              | _ => None
              end
          | _ => None
          end
      | _ => None
      end
  end.

(** [answered norm history requests documents]: the requests were issued one
    after the other on top of [history], each got a response that passed the
    status check, and the [i]-th document is what [norm] makes of the
    response to the [i]-th request. *)
Inductive answered (norm : Response -> result pyval)
  : list Request -> list Request -> list pyval -> Prop :=
| answered_nil history : answered norm history [] []
| answered_cons history rq requests response document documents :
    server history rq = Ok response ->
    raise_for_status response = Ok tt ->
    norm response = Ok document ->
    answered norm (history ++ [rq]) requests documents ->
    answered norm history (rq :: requests) (document :: documents).

(** What one turn of an inference loop makes of the outcome of its
    exchange: the document to append, or the exception that ends the
    loop. *)
Definition turn (norm : Response -> result pyval)
    (outcome : result Response) : result pyval :=
  let? response := outcome in
  let? _ := raise_for_status response in
  norm response.

(** The request of one turn of the legacy loop. *)
Definition legacy_request (c : InferenceHTTPClient) (dataset version : string)
    (params : gmap string pyval) (element : string) : Request :=
  mkRequest POST (api_url c +:+ "/" +:+ dataset +:+ "/" +:+ version)
    DEFAULT_HEADERS params None (Some element).

(** The requests of the turns of the new loop, the payload starting as
    [payload]. *)
Fixpoint new_requests (c : InferenceHTTPClient) (endpoint : string)
    (payload : gmap string pyval) (elements : list string) : list Request :=
  match elements with
  | [] => []
  | element :: rest =>
      let payload :=
        <[ "image" := PDict {[ "type" := PStr "base64";
                               "value" := PStr element ]} ]> payload in
      mkRequest POST (api_url c +:+ endpoint) DEFAULT_HEADERS ∅
        (Some (PDict payload)) None
      :: new_requests c endpoint payload rest
  end.

(** The payload [infer_from_new_api] builds before its loop. *)
Definition new_payload (c : InferenceHTTPClient) (type : option ModelType)
    (model_id : option string) : gmap string pyval :=
  to_api_call_parameters (inference_configuration c) (client_mode c)
    (default (model_type c) type)
  ∪ {[ "api_key" := PStr (api_key c);
       "model_id" := py_of_option (py_or model_id (selected_model c)) ]}.

(** The parameters [infer_from_legacy_api] builds before its loop. *)
Definition legacy_params (c : InferenceHTTPClient) : gmap string pyval :=
  to_legacy_call_parameters (inference_configuration c)
  ∪ {[ "api_key" := PStr (api_key c) ]}.

(** The shape both inference loops share: send the requests in order,
    check the status of each response, append its document. *)
Fixpoint exchange_loop (norm : Response -> result pyval)
    (requests : list Request) (results : list pyval) : M (list pyval) :=
  match requests with
  | [] => ret results
  | rq :: rest =>
      let* response := send rq in
      let* _ := lift (raise_for_status response) in
      let* document := lift (norm response) in
      exchange_loop norm rest (results ++ [document])
  end.

(** The value a call returns or the exception it raises, once its loop has
    run. *)
Definition finish (translate : exn -> exn)
    (r : result (list pyval) * Machine) : result (pyval + list pyval) * Machine :=
  (match fst r with
   | Ok out => Ok (unwrap_single_element_list out)
   | Raise e => Raise (translate e)
   end, snd r).

(** The operations of the client that reach the server, all through
    [wrap_errors]: the five registry calls, [predict], and one step of the
    generator of [predict_on_stream], which calls [predict]. *)
Inductive Call : Type :=
| GetServerInfo
| ListLoadedModels
| LoadModel (model_id : string) (type : ModelType) (set_as_default : bool)
| UnloadModel (model_id : string)
| UnloadAllModels
| Predict (input : ImagesReference + list ImagesReference)
    (type : option ModelType) (model_id : option string)
| StreamNext (g : Stream).

(** The exception a computation ended with, if any, and the machine it
    left. *)
Definition raised {A} (r : result A * Machine) : option exn * Machine :=
  (match fst r with
   | Ok _ => None
   | Raise e => Some e
   end, snd r).

Definition run_call (call : Call) (m : Machine) : option exn * Machine :=
  match call with
  | GetServerInfo => raised (get_server_info m)
  | ListLoadedModels => raised (list_loaded_models m)
  | LoadModel model_id type set_as_default =>
      raised (load_model model_id type set_as_default m)
  | UnloadModel model_id => raised (unload_model model_id m)
  | UnloadAllModels => raised (unload_all_models m)
  | Predict input type model_id => raised (predict input type model_id m)
  | StreamNext g => raised (fst (fst (next g m)), snd (next g m))
  end.

(** [predicted type model_id m frames predictions m']: calling [predict] on
    each of the frames in turn, from machine [m] on, returns each time; the
    calls give [predictions], in order, and leave machine [m']. *)
Inductive predicted (type : option ModelType) (model_id : option string)
  : Machine -> list ImagesReference -> list (pyval + list pyval) -> Machine
    -> Prop :=
| predicted_nil m : predicted type model_id m [] [] m
| predicted_cons m frame frames prediction predictions m1 m2 :
    predict (inl frame) type model_id m = (Ok prediction, m1) ->
    predicted type model_id m1 frames predictions m2 ->
    predicted type model_id m (frame :: frames) (prediction :: predictions) m2.

(** A pair as [next] hands it over. *)
Definition yield (pair : ImagesReference * (pyval + list pyval))
  : result (option (ImagesReference * (pyval + list pyval))) :=
  Ok (Some pair).

End Notions.

(** ** The model cache ([inference/core/cache/model_artefacts.py])

    The paths of the cache.  [os.path.join] is the one of POSIX systems:
    an absolute second component replaces the first, and a separator is
    put between the two unless the first is empty or ends with one.
    [MODEL_CACHE_DIR] comes from the environment of the server. *)

Definition sep : ascii := "/"%char.

(** [s.startswith("/")]. *)
Definition startswith_sep (s : string) : bool :=
  match s with
  | String c _ => bool_decide (c = sep)
  | EmptyString => false
  end.

(** [s.endswith("/")]. *)
Fixpoint endswith_sep (s : string) : bool :=
  match s with
  | EmptyString => false
  | String c EmptyString => bool_decide (c = sep)
  | String _ rest => endswith_sep rest
  end.

(** [os.path.join(a, b)]. *)
Definition os_path_join (a b : string) : string :=
  if startswith_sep b then b
  else if bool_decide (a = "") || endswith_sep a then a +:+ b
  else a +:+ "/" +:+ b.

Section Cache.
Variable MODEL_CACHE_DIR : string.

Definition get_cache_dir (model_id : option string) : string :=
  match model_id with
  | Some id => os_path_join MODEL_CACHE_DIR id
  | None => MODEL_CACHE_DIR
  end.

Definition get_cache_file_path (file : string) (model_id : option string)
  : string :=
  os_path_join (get_cache_dir model_id) file.

End Cache.

(** ** Further notions *)

Section FurtherNotions.
Context {env : Environment}.

(** The exception an exchange ends with, if it does: the one [requests]
    raised, or the one of the status check. *)
Definition exchange_failure (outcome : result Response) : option exn :=
  match outcome with
  | Raise e => Some e
  | Ok response =>
      match raise_for_status response with
      | Raise e => Some e
      | Ok _ => None
      end
  end.

(** The classes the two [except] clauses of [wrap_errors] name. *)
Definition is_caught (e : exn) : bool :=
  match e with
  | HTTPError _ _ | ConnectionError _ => true
  | _ => false
  end.

(** The request of the new protocol for one encoded input, from the payload
    built before the loop. *)
Definition new_request (c : InferenceHTTPClient) (type : option ModelType)
    (model_id : option string) (element : string) : Request :=
  mkRequest POST
    (api_url c +:+ NEW_INFERENCE_ENDPOINTS (default (model_type c) type))
    DEFAULT_HEADERS ∅
    (Some (PDict (<[ "image" := PDict {[ "type" := PStr "base64";
                                         "value" := PStr element ]} ]>
                    (new_payload c type model_id))))
    None.

End FurtherNotions.

(** A server that cannot be reached, the failure being a built-in
    [ConnectionError]. *)
Definition E_refused : Environment :=
  sample_environment (always (Raise (ConnectionError "refused"))).

(** A [from_dict] that asks the payload for a [models] entry, with
    [payload["models"]], and so raises when the entry is not there. *)
Definition strict_from_dict (payload : pyval) : result pyval :=
  let? _ := py_getitem payload "models" in
  Ok payload.

(** The sample environment with that stricter snapshot. *)
Definition strict_environment
    (srv : list Request -> Request -> result Response) : Environment :=
  {| ImagesReference := string;
     InferenceConfiguration := unit;
     VisualisationFormat := unit;
     ServerInfo := pyval;
     RegisteredModels := pyval;
     init_default := tt;
     image_extensions_for_directory_scan := fun _ => ["jpg"];
     output_visualisation_format := fun _ => tt;
     to_legacy_call_parameters := fun _ => {[ "confidence" := PInt 40 ]};
     to_api_call_parameters := fun _ _ _ => {[ "confidence" := PInt 40 ]};
     ServerInfo_from_dict := Ok;
     RegisteredModels_from_dict := strict_from_dict;
     load_static_inference_input :=
       fun input => Ok match input with inl image => [image] | inr images => images end;
     load_stream_inference_input := fun input_uri _ => str_split "," input_uri;
     response_contains_jpeg_image := sample_jpeg;
     transform_visualisation_bytes := fun bytes _ => Ok (PImage bytes);
     transform_base64_visualisation := fun visualisation _ => sample_decode visualisation;
     http_error_msg := fun _ => "HTTP error";
     server := srv |}.

(** A server that answers every request with status 302 and the JSON
    document [{}]. *)
Definition found_elsewhere : list Request -> Request -> result Response :=
  always (Ok (json_response 302 (PDict ∅))).

Definition E_found_elsewhere : Environment :=
  sample_environment found_elsewhere.

Definition E_strict_found_elsewhere : Environment :=
  strict_environment found_elsewhere.

(** A server that answers its first request and is unavailable at the
    second. *)
Definition failing_second : list Request -> Request -> result Response :=
  scripted [json_response 200 (PDict ∅); unavailable].

Definition E_failing_second : Environment := sample_environment failing_second.

(** A response declared as JSON with a character set. *)
Definition rejection : gmap string pyval := {[ "message" := PStr "bad image" ]}.

Definition rejected : Response :=
  {| status_code := 422;
     headers := {[ "content-type" := "application/json; charset=utf-8" ]};
     content := "";
     text := "";
     json := Some (PDict rejection) |}.

(** * Properties *)

Section Properties.
Context {env : Environment}.

Ltac run :=
  unfold wrap_errors, bind, get_self, set_self, ret, raise, lift,
    requests_post, requests_get, send in *;
  cbn [self sent fst snd] in *.

(** ** The inference loops *)

Lemma legacy_loop_exchange c dataset version params elements results m :
  legacy_loop c dataset version params elements results m
  = exchange_loop (legacy_result c)
      (map (legacy_request c dataset version params) elements) results m.
Proof.
  revert results m.
  induction elements as [|element rest IH]; intros results m; [done|].
  cbn [legacy_loop map exchange_loop]. unfold legacy_request. run.
  destruct (server (sent m) _) as [response|]; cbn; [|done].
  destruct (raise_for_status response); cbn; [|done].
  destruct (legacy_result c response); cbn; [|done].
  apply IH.
Qed.

Lemma new_loop_exchange c endpoint payload elements results m :
  new_loop c endpoint payload elements results m
  = exchange_loop (new_result c)
      (new_requests c endpoint payload elements) results m.
Proof.
  revert payload results m.
  induction elements as [|element rest IH]; intros payload results m; [done|].
  cbn [new_loop new_requests exchange_loop]. run.
  destruct (server (sent m) _) as [response|]; cbn; [|done].
  destruct (raise_for_status response); cbn; [|done].
  destruct (new_result c response); cbn; [|done].
  apply IH.
Qed.

(** A loop leaves the client object alone.  When it returns, every request
    was sent and answered, and the documents were appended in order; when
    it raises, the last request sent is the one whose turn raised. *)
Lemma exchange_loop_run norm requests results m :
  self (snd (exchange_loop norm requests results m)) = self m
  /\ match fst (exchange_loop norm requests results m) with
     | Ok out =>
         sent (snd (exchange_loop norm requests results m))
         = sent m ++ requests
         /\ exists documents,
             out = results ++ documents
             /\ answered norm (sent m) requests documents
     | Raise e =>
         exists earlier rq later,
           requests = earlier ++ rq :: later
           /\ sent (snd (exchange_loop norm requests results m))
              = sent m ++ earlier ++ [rq]
           /\ turn norm (server (sent m ++ earlier) rq) = Raise e
     end.
Proof.
  revert results m.
  induction requests as [|rq rest IH]; intros results m.
  - cbn. split; [done|]. split; [by rewrite app_nil_r|].
    exists []. split; [by rewrite app_nil_r|constructor].
  - cbn [exchange_loop]. run.
    destruct (server (sent m) rq) as [response|e] eqn:Hserver; cbn.
    + destruct (raise_for_status response) as [[]|e] eqn:Hstatus; cbn.
      * destruct (norm response) as [document|e] eqn:Hnorm; cbn.
        -- set (m1 := {| self := self m; sent := sent m ++ [rq] |}).
           destruct (IH (results ++ [document]) m1) as [Hself Hrun].
           split; [done|].
           destruct (fst (exchange_loop norm rest (results ++ [document]) m1)).
           ++ destruct Hrun as [Hsent (documents & -> & Hanswered)].
              split; [by rewrite Hsent; cbn; rewrite <- app_assoc|].
              exists (document :: documents).
              split; [by rewrite <- app_assoc|].
              by econstructor.
           ++ destruct Hrun as (earlier & rq' & later & -> & Hsent & Hturn).
              exists (rq :: earlier), rq', later.
              split; [done|]. cbn in Hsent, Hturn.
              split; [by rewrite Hsent, <- !app_assoc|].
              by rewrite <- app_assoc in Hturn.
        -- split; [done|]. exists [], rq, rest.
           rewrite app_nil_r. unfold turn. rewrite Hserver. cbn.
           by rewrite Hstatus; cbn.
      * split; [done|]. exists [], rq, rest.
        rewrite app_nil_r. unfold turn. rewrite Hserver. cbn.
        by rewrite Hstatus.
    + split; [done|]. exists [], rq, rest.
      rewrite app_nil_r. unfold turn. by rewrite Hserver.
Qed.

(** ** Identifiers *)

Lemma str_split_length sep s :
  length (str_split sep s) = S (count_char sep s).
Proof.
  induction s as [|c rest IH]; [done|]. cbn.
  destruct (decide (c = sep)); cbn; [by rewrite IH|].
  destruct (str_split sep rest); cbn in *; [done|lia].
Qed.

Lemma str_split_two sep s dataset version :
  str_split sep s = [dataset; version] -> count_char sep s = 1%nat.
Proof.
  intros Hsplit. pose proof (str_split_length sep s) as Hlen.
  rewrite Hsplit in Hlen. cbn in Hlen. lia.
Qed.

Lemma count_char_app c s1 s2 :
  count_char c (s1 +:+ s2) = (count_char c s1 + count_char c s2)%nat.
Proof.
  induction s1 as [|c' rest IH]; [done|].
  change (String c' rest +:+ s2) with (String c' (rest +:+ s2)).
  cbn [count_char]. rewrite IH. by destruct (decide (c' = c)).
Qed.

(** An identifier of the specified format has exactly one [/]. *)
Lemma two_nonempty_segments_one_slash id :
  two_nonempty_segments id -> count_char "/" id = 1%nat.
Proof.
  intros (dataset & version & -> & _ & _ & Hdataset & Hversion).
  rewrite !count_char_app, Hdataset, Hversion. done.
Qed.

Lemma predict_legacy m input type model_id :
  client_mode (self m) = LEGACY ->
  predict input type model_id m
  = wrap_errors (infer_from_legacy_api input model_id) m.
Proof. intros Hmode. unfold predict. run. by rewrite Hmode. Qed.

Lemma predict_new m input type model_id :
  client_mode (self m) = NEW ->
  predict input type model_id m
  = wrap_errors (infer_from_new_api input type model_id) m.
Proof. intros Hmode. unfold predict. run. by rewrite Hmode. Qed.

(** C1, as the code has it: in legacy mode, once the input is encoded, an
    identifier that does not hold exactly one [/] (so that splitting it
    does not give exactly two segments, empty or not) makes the call raise
    [InvalidModelIdentifier]; no request is sent and the client object is
    untouched. *)
Theorem legacy_identifier_check (m : Machine)
    (input : ImagesReference + list ImagesReference)
    (type : option ModelType) (model_id : option string)
    (elements : list string) (id : string) :
  client_mode (self m) = LEGACY ->
  load_static_inference_input input = Ok elements ->
  py_or model_id (selected_model (self m)) = Some id ->
  count_char "/" id <> 1%nat ->
  predict input type model_id m
  = (Raise (InvalidModelIdentifier
              ("Invalid model identifier: " +:+ py_str model_id +:+ " in use.")),
     m).
Proof.
  intros Hmode Hencoded Hid Hcount.
  rewrite predict_legacy by done. unfold infer_from_legacy_api. run.
  rewrite Hencoded, Hid. cbn.
  destruct (str_split "/" id) as [|dataset [|version [|]]] eqn:Hsplit; cbn;
    try by destruct m.
  by apply str_split_two in Hsplit.
Qed.

(** ** The two protocols as loops of exchanges *)

Lemma infer_from_legacy_api_run m input model_id elements id dataset version :
  load_static_inference_input input = Ok elements ->
  py_or model_id (selected_model (self m)) = Some id ->
  str_split "/" id = [dataset; version] ->
  infer_from_legacy_api input model_id m
  = finish (fun e => e)
      (exchange_loop (legacy_result (self m))
         (map (legacy_request (self m) dataset version (legacy_params (self m)))
            elements) [] m).
Proof.
  intros Hencoded Hid Hsplit. unfold infer_from_legacy_api, finish. run.
  rewrite Hencoded, Hid. cbn. rewrite Hsplit.
  fold (legacy_params (self m)). rewrite legacy_loop_exchange.
  by destruct (exchange_loop _ _ _ _) as [[out|e] m'].
Qed.

Lemma infer_from_new_api_run m input type model_id elements :
  load_static_inference_input input = Ok elements ->
  infer_from_new_api input type model_id m
  = finish (fun e => e)
      (exchange_loop (new_result (self m))
         (new_requests (self m)
            (NEW_INFERENCE_ENDPOINTS (default (model_type (self m)) type))
            (new_payload (self m) type model_id) elements) [] m).
Proof.
  intros Hencoded. unfold infer_from_new_api, finish. run.
  rewrite Hencoded. cbn. fold (new_payload (self m) type model_id).
  rewrite new_loop_exchange.
  by destruct (exchange_loop _ _ _ _) as [[out|e] m'].
Qed.

Lemma wrap_errors_finish (f : M (pyval + list pyval)) m r :
  f m = finish (fun e => e) r -> wrap_errors f m = finish translate_error r.
Proof.
  intros Hrun. unfold wrap_errors. rewrite Hrun. unfold finish.
  by destruct (fst r).
Qed.

(** Once its first request is sent, a loop only adds to the requests
    sent. *)
Lemma exchange_loop_first norm rq rest results m :
  exists later,
    sent (snd (exchange_loop norm (rq :: rest) results m))
    = sent m ++ rq :: later.
Proof.
  destruct (exchange_loop_run norm (rq :: rest) results m) as [_ Hrun].
  destruct (fst (exchange_loop norm (rq :: rest) results m)).
  - destruct Hrun as [Hsent _]. eauto.
  - destruct Hrun as (earlier & rq' & later & Hsplit & Hsent & _).
    destruct earlier as [|rq0 earlier]; cbn in Hsplit;
      injection Hsplit as <- _; rewrite Hsent; cbn; eauto.
Qed.

(** C9, as the code has it: when the input encodes to no element, a call
    in new mode returns the empty sequence, and so does a call in legacy
    mode whose identifier holds exactly one [/]; no request is sent. *)
Theorem empty_batch_gives_empty_sequence (m : Machine)
    (input : ImagesReference + list ImagesReference)
    (type : option ModelType) (model_id : option string) :
  load_static_inference_input input = Ok [] ->
  (client_mode (self m) = NEW ->
   predict input type model_id m = (Ok (inr []), m))
  /\ (client_mode (self m) = LEGACY ->
      forall id,
        py_or model_id (selected_model (self m)) = Some id ->
        count_char "/" id = 1%nat ->
        predict input type model_id m = (Ok (inr []), m)).
Proof.
  intros Hencoded. split.
  - intros Hmode. rewrite predict_new by done.
    by rewrite (wrap_errors_finish _ _ _
                  (infer_from_new_api_run _ _ _ _ _ Hencoded)).
  - intros Hmode id Hid Hcount. rewrite predict_legacy by done.
    pose proof (str_split_length "/" id) as Hlen. rewrite Hcount in Hlen.
    destruct (str_split "/" id) as [|dataset [|version [|]]] eqn:Hsplit;
      try done.
    by rewrite (wrap_errors_finish _ _ _
                  (infer_from_legacy_api_run _ _ _ _ _ _ _ Hencoded Hid Hsplit)).
Qed.

(** C2, as the code has it: when no identifier is resolvable and the input
    encodes, a call in legacy mode raises an [AttributeError] before any
    request is sent, and a call in new mode makes no check: with at least
    one encoded input its first request is sent, and the [model_id] entry of
    the payload is [None] unless the call parameters set one. *)
Theorem missing_identifier (m : Machine)
    (input : ImagesReference + list ImagesReference)
    (type : option ModelType) (model_id : option string)
    (elements : list string) :
  load_static_inference_input input = Ok elements ->
  py_or model_id (selected_model (self m)) = None ->
  (client_mode (self m) = LEGACY ->
   predict input type model_id m
   = (Raise (AttributeError "'NoneType' object has no attribute 'split'"), m))
  /\ (client_mode (self m) = NEW ->
      elements <> [] ->
      exists rq later payload,
        sent (snd (predict input type model_id m)) = sent m ++ rq :: later
        /\ req_json rq = Some (PDict payload)
        /\ (to_api_call_parameters (inference_configuration (self m)) NEW
              (default (model_type (self m)) type) !! "model_id" = None ->
            payload !! "model_id" = Some PNone)).
Proof.
  intros Hencoded Hid. split.
  - intros Hmode. rewrite predict_legacy by done.
    unfold infer_from_legacy_api. run. rewrite Hencoded, Hid. cbn.
    by destruct m.
  - intros Hmode Hne. rewrite predict_new by done.
    rewrite (wrap_errors_finish _ _ _
               (infer_from_new_api_run _ _ _ _ _ Hencoded)).
    destruct elements as [|element rest]; [done|].
    cbn [new_requests finish snd].
    match goal with
    | |- context [exchange_loop ?norm (?rq :: ?rqs) [] m] =>
        destruct (exchange_loop_first norm rq rqs [] m) as [later Hsent]
    end.
    eexists _, later, _. split; [exact Hsent|]. split; [done|].
    intros Hparams. rewrite lookup_insert_ne by done.
    unfold new_payload. rewrite Hmode, Hid.
    apply lookup_union_Some_raw. right. split; [done|].
    rewrite lookup_insert_ne by done. by rewrite lookup_singleton_eq.
Qed.

(** ** Results *)

Lemma carried_by_legacy_requests c dataset version params elements :
  map (carried_input LEGACY)
    (map (legacy_request c dataset version params) elements)
  = map Some elements.
Proof. induction elements as [|element rest IH]; cbn; [done|by f_equal]. Qed.

Lemma carried_by_new_requests c endpoint payload elements :
  map (carried_input NEW) (new_requests c endpoint payload elements)
  = map Some elements.
Proof.
  revert payload.
  induction elements as [|element rest IH]; intros payload; [done|].
  cbn [new_requests map]. f_equal; [|apply IH].
  cbn. rewrite lookup_insert_eq.
  rewrite lookup_insert_ne by done. by rewrite lookup_singleton_eq.
Qed.

Lemma answered_length norm history requests documents :
  answered norm history requests documents ->
  length documents = length requests.
Proof. induction 1; cbn; [done|by f_equal]. Qed.

(** C4: when an inference call returns, in either mode, it has sent one
    request for each encoded input, in the order of the inputs, and the
    documents are what the protocol makes of the responses, in that order.
    With exactly one encoded input the call returns the document itself;
    with two or more it returns the sequence of documents. *)
Theorem predict_result_shape (m m' : Machine)
    (input : ImagesReference + list ImagesReference)
    (type : option ModelType) (model_id : option string)
    (elements : list string) (r : pyval + list pyval) :
  load_static_inference_input input = Ok elements ->
  predict input type model_id m = (Ok r, m') ->
  exists requests documents,
    sent m' = sent m ++ requests
    /\ map (carried_input (client_mode (self m))) requests = map Some elements
    /\ answered (normalised (client_mode (self m)) (self m)) (sent m)
         requests documents
    /\ length documents = length elements
    /\ (length elements = 1%nat -> exists document,
           documents = [document] /\ r = inl document)
    /\ ((2 <= length elements)%nat -> r = inr documents).
Proof.
  intros Hencoded Hrun.
  assert (exists requests,
             map (carried_input (client_mode (self m))) requests
             = map Some elements
             /\ predict input type model_id m
                = finish translate_error
                    (exchange_loop (normalised (client_mode (self m)) (self m))
                       requests [] m)) as (requests & Hcarried & Hpredict).
  { destruct (client_mode (self m)) eqn:Hmode.
    - eexists. split; [apply carried_by_new_requests|].
      rewrite predict_new by done.
      apply wrap_errors_finish, infer_from_new_api_run, Hencoded.
    - rewrite predict_legacy in Hrun by done.
      unfold wrap_errors, infer_from_legacy_api in Hrun. run.
      rewrite Hencoded in Hrun. cbn in Hrun.
      destruct (py_or model_id (selected_model (self m))) as [id|] eqn:Hid;
        [|done].
      destruct (str_split "/" id) as [|dataset [|version [|]]] eqn:Hsplit;
        try done.
      eexists. split; [apply carried_by_legacy_requests|].
      rewrite predict_legacy by done.
      eapply wrap_errors_finish, infer_from_legacy_api_run; done. }
  rewrite Hpredict in Hrun. unfold finish in Hrun.
  destruct (exchange_loop_run (normalised (client_mode (self m)) (self m))
              requests [] m) as [_ Hloop].
  destruct (fst (exchange_loop _ requests [] m)) as [out|e]; [|done].
  destruct Hloop as [Hsent (documents & -> & Hanswered)].
  injection Hrun as <- <-. cbn [app].
  assert (length documents = length elements) as Hlen.
  { rewrite (answered_length _ _ _ _ Hanswered).
    by rewrite <- (length_map (carried_input (client_mode (self m))) requests),
      Hcarried, length_map. }
  exists requests, documents. repeat split; try done.
  - intros Hone. rewrite Hone in Hlen.
    destruct documents as [|document [|]]; try done. by exists document.
  - intros Htwo.
    destruct documents as [|document [|]]; cbn in Hlen; try done; lia.
Qed.

(** C5, as the code has it: what the new protocol makes of a response that
    passed the status check.  The body is always parsed as JSON: a body
    that does not decode raises, and so does one that decodes to a value
    that is not a JSON object, an [AttributeError].  When the parsed
    document is an object with a [visualization] entry that is not [None],
    the entry is replaced by what [transform_base64_visualisation] decodes
    it to in the configured output format, and the rest of the document
    stays; when the entry is absent, or [None], the document comes back as
    it was parsed. *)
Theorem new_response_normalised (c : InferenceHTTPClient)
    (response : Response) :
  (json response = None -> exists e, new_result c response = Raise e)
  /\ (forall v,
        json response = Some v ->
        (forall document, v <> PDict document) ->
        new_result c response
        = Raise (AttributeError
                   ("'" +:+ py_type_name v
                    +:+ "' object has no attribute 'get'")))
  /\ (forall document entry decoded,
        json response = Some (PDict document) ->
        document !! "visualization" = Some entry ->
        entry <> PNone ->
        transform_base64_visualisation entry
          (output_visualisation_format (inference_configuration c))
        = Ok decoded ->
        new_result c response
        = Ok (PDict (<[ "visualization" := decoded ]> document)))
  /\ (forall document,
        json response = Some (PDict document) ->
        document !! "visualization" = None
        \/ document !! "visualization" = Some PNone ->
        new_result c response = Ok (PDict document)).
Proof.
  unfold new_result, response_json. split; [|split; [|split]].
  - intros ->. cbn. eauto.
  - intros v -> Hshape. cbn. destruct v; try done.
    by destruct (Hshape entries).
  - intros document entry decoded -> Hentry Hne Hdecoded. cbn.
    rewrite Hentry. cbn. rewrite Hdecoded. by destruct entry.
  - intros document -> [Hentry|Hentry]; cbn; by rewrite Hentry.
Qed.

(** ** Error statuses *)

Lemma raise_for_status_error response :
  400 <= status_code response < 600 ->
  raise_for_status response
  = Raise (HTTPError (http_error_msg response) response).
Proof.
  intros [Hlow Hhigh]. unfold raise_for_status.
  apply Z.leb_le in Hlow. apply Z.ltb_lt in Hhigh. by rewrite Hlow, Hhigh.
Qed.

Lemma answered_last norm history earlier rq documents :
  answered norm history (earlier ++ [rq]) documents ->
  exists response,
    server (history ++ earlier) rq = Ok response
    /\ raise_for_status response = Ok tt.
Proof.
  revert history documents.
  induction earlier as [|rq0 earlier IH]; intros history documents Hanswered;
    inversion Hanswered; subst.
  - rewrite app_nil_r. eauto.
  - destruct (IH _ _ H6) as (response' & Hserver & Hstatus).
    rewrite <- app_assoc in Hserver. eauto.
Qed.

(** When the last request a loop sent got an error status, the loop raised
    the [HTTPError] of that response. *)
Lemma exchange_loop_error norm requests results m earlier rq response :
  sent (snd (exchange_loop norm requests results m))
  = sent m ++ earlier ++ [rq] ->
  server (sent m ++ earlier) rq = Ok response ->
  400 <= status_code response < 600 ->
  fst (exchange_loop norm requests results m)
  = Raise (HTTPError (http_error_msg response) response).
Proof.
  intros Hsent Hserver Hstatus.
  apply raise_for_status_error in Hstatus.
  destruct (exchange_loop_run norm requests results m) as [_ Hrun].
  destruct (fst (exchange_loop norm requests results m)) as [out|e].
  - destruct Hrun as [Hsent' (documents & _ & Hanswered)].
    rewrite Hsent' in Hsent. apply app_inv_head in Hsent. subst requests.
    apply answered_last in Hanswered as (response' & Hserver' & Hstatus').
    rewrite Hserver in Hserver'. injection Hserver' as <-.
    by rewrite Hstatus in Hstatus'.
  - destruct Hrun as (earlier' & rq' & later & _ & Hsent' & Hturn).
    rewrite Hsent' in Hsent. apply app_inv_head in Hsent.
    apply app_inj_tail in Hsent as [-> ->].
    unfold turn in Hturn. rewrite Hserver in Hturn. cbn in Hturn.
    rewrite Hstatus in Hturn. cbn in Hturn. congruence.
Qed.

Lemma nothing_sent {A} (l : list A) earlier x : l = l ++ earlier ++ [x] -> False.
Proof.
  intros Heq. apply (f_equal length) in Heq.
  rewrite !length_app in Heq. cbn in Heq. lia.
Qed.

Lemma one_sent {A} (l : list A) issued earlier x :
  l ++ [issued] = l ++ earlier ++ [x] -> earlier = [] /\ x = issued.
Proof.
  intros Heq. apply app_inv_head in Heq.
  destruct earlier as [|y [|z earlier]]; cbn in Heq; by simplify_eq.
Qed.

Lemma predict_error m input type model_id earlier rq response :
  sent (snd (predict input type model_id m)) = sent m ++ earlier ++ [rq] ->
  server (sent m ++ earlier) rq = Ok response ->
  400 <= status_code response < 600 ->
  fst (predict input type model_id m)
  = Raise (translate_error (HTTPError (http_error_msg response) response)).
Proof.
  intros Hsent Hserver Hstatus.
  destruct (load_static_inference_input input) as [elements|e] eqn:Hencoded.
  - destruct (client_mode (self m)) eqn:Hmode.
    + rewrite predict_new in * by done.
      rewrite (wrap_errors_finish _ _ _
                 (infer_from_new_api_run _ _ _ _ _ Hencoded)) in *.
      unfold finish in *. cbn [fst snd] in *.
      by rewrite (exchange_loop_error _ _ _ _ _ _ _ Hsent Hserver Hstatus).
    + rewrite predict_legacy in * by done.
      destruct (py_or model_id (selected_model (self m))) as [id|] eqn:Hid.
      * destruct (str_split "/" id) as [|dataset [|version [|]]] eqn:Hsplit.
        3: { rewrite (wrap_errors_finish _ _ _
                   (infer_from_legacy_api_run _ _ _ _ _ _ _
                      Hencoded Hid Hsplit)) in *.
             unfold finish in *. cbn [fst snd] in *.
             by rewrite (exchange_loop_error _ _ _ _ _ _ _
                           Hsent Hserver Hstatus). }
        all: exfalso; revert Hsent; unfold infer_from_legacy_api; run;
          rewrite Hencoded, Hid; cbn; rewrite Hsplit; cbn;
          apply nothing_sent.
      * exfalso. revert Hsent. unfold infer_from_legacy_api. run.
        rewrite Hencoded, Hid. cbn. apply nothing_sent.
  - exfalso. revert Hsent. unfold predict, infer_from_legacy_api,
      infer_from_new_api. run.
    destruct (client_mode (self m)); cbn; rewrite Hencoded; cbn;
      apply nothing_sent.
Qed.

(** A registry call: one exchange, a status check, and a continuation
    that sends nothing. *)
Lemma one_exchange_error {A} (issued : Request) (k : Response -> M A)
    m earlier rq response :
  (forall r m1, sent (snd (k r m1)) = sent m1) ->
  let call :=
    wrap_errors (let* r := send issued in
                 let* _ := lift (raise_for_status r) in
                 k r) in
  sent (snd (call m)) = sent m ++ earlier ++ [rq] ->
  server (sent m ++ earlier) rq = Ok response ->
  400 <= status_code response < 600 ->
  fst (call m)
  = Raise (translate_error (HTTPError (http_error_msg response) response)).
Proof.
  intros Hk call Hsent Hserver Hstatus. subst call.
  assert (sent (snd (wrap_errors
                       (let* r := send issued in
                        let* _ := lift (raise_for_status r) in
                        k r) m)) = sent m ++ [issued]) as Hissued.
  { run. destruct (server (sent m) issued) as [r|]; cbn; [|done].
    destruct (raise_for_status r); cbn; [|done].
    specialize (Hk r {| self := self m; sent := sent m ++ [issued] |}).
    by destruct (k r _) as [[] ?]. }
  rewrite Hissued in Hsent. apply one_sent in Hsent as [-> ->].
  rewrite app_nil_r in Hserver. run. rewrite Hserver. cbn.
  by rewrite (raise_for_status_error _ Hstatus).
Qed.

(** The exception a call ends with when the last request it sent got an
    error status: what [wrap_errors] makes of that response's
    [HTTPError]. *)
Lemma run_call_error call m earlier rq response :
  sent (snd (run_call call m)) = sent m ++ earlier ++ [rq] ->
  server (sent m ++ earlier) rq = Ok response ->
  400 <= status_code response < 600 ->
  fst (run_call call m)
  = Some (translate_error (HTTPError (http_error_msg response) response)).
Proof.
  intros Hsent Hserver Hstatus.
  assert (forall A (r : result A * Machine) e,
             fst r = Raise e -> fst (raised r) = Some e) as Hraised.
  { intros A r e Hr. unfold raised. cbn. by rewrite Hr. }
  destruct call as [| |model_id type set_as_default|model_id| |input type id|g];
    cbn [run_call] in *; apply Hraised;
    change (sent (snd (raised ?r))) with (sent (snd r)) in Hsent.
  - eapply (one_exchange_error _
              (fun r => let* response_payload := lift (response_json r) in
                        lift (ServerInfo_from_dict response_payload)));
      [|exact Hsent|done..].
    intros r m1. run. by destruct (response_json r).
  - eapply (one_exchange_error _
              (fun r => let* response_payload := lift (response_json r) in
                        lift (RegisteredModels_from_dict response_payload)));
      [|exact Hsent|done..].
    intros r m1. run. by destruct (response_json r).
  - eapply (one_exchange_error _
              (fun r =>
                 let* response_payload := lift (response_json r) in
                 let* _ := (if set_as_default
                            then set_self (set_selection (self m)
                                             (Some model_id) type)
                            else ret tt) in
                 lift (RegisteredModels_from_dict response_payload)));
      [|exact Hsent|done..].
    intros r m1. run. destruct (response_json r); [|done].
    by destruct set_as_default.
  - eapply (one_exchange_error _
              (fun r =>
                 let* response_payload := lift (response_json r) in
                 let* _ := (if decide (Some model_id = selected_model (self m))
                            then set_self (set_selection (self m) None
                                             OBJECT_DETECTION)
                            else ret tt) in
                 lift (RegisteredModels_from_dict response_payload)));
      [|exact Hsent|done..].
    intros r m1. run. destruct (response_json r); [|done].
    by destruct (decide _).
  - eapply (one_exchange_error _
              (fun r =>
                 let* response_payload := lift (response_json r) in
                 let* _ := set_self (set_selection (self m) None
                                       OBJECT_DETECTION) in
                 lift (RegisteredModels_from_dict response_payload)));
      [|exact Hsent|done..].
    intros r m1. run. by destruct (response_json r).
  - by eapply predict_error.
  - cbn [fst snd] in *. unfold next, resume in *.
    destruct g as [input_uri type model_id|frames type model_id|].
    + destruct (load_stream_inference_input _ _) as [|frame rest];
        [by apply nothing_sent in Hsent|].
      pose proof (fun H => predict_error m (inl frame) type model_id earlier rq
                            response H Hserver Hstatus) as Hpredict.
      destruct (predict (inl frame) type model_id m) as [[prediction|e] m'];
        cbn [fst snd] in *; specialize (Hpredict Hsent); congruence.
    + destruct frames as [|frame rest];
        [by apply nothing_sent in Hsent|].
      pose proof (fun H => predict_error m (inl frame) type model_id earlier rq
                            response H Hserver Hstatus) as Hpredict.
      destruct (predict (inl frame) type model_id m) as [[prediction|e] m'];
        cbn [fst snd] in *; specialize (Hpredict Hsent); congruence.
    + by apply nothing_sent in Hsent.
Qed.

(** C3, as the code has it: when the last request a call sent was answered
    with an error status (400 to 599) by a response that has a
    [Content-Type] header, the call raises [HTTPCallErrorError] with that
    status; its message is the [message] entry of the body ([None] when
    there is none) if the header contains [application/json] and the body
    is a JSON object, and the text of the body if the header does not
    contain [application/json]. *)
Theorem error_status_translated (call : Call) (m : Machine)
    (earlier : list Request) (rq : Request) (response : Response)
    (content_type : string) :
  sent (snd (run_call call m)) = sent m ++ earlier ++ [rq] ->
  server (sent m ++ earlier) rq = Ok response ->
  400 <= status_code response < 600 ->
  headers_get "Content-Type" response = Some content_type ->
  (str_contains "application/json" content_type = true ->
   forall document,
     json response = Some (PDict document) ->
     fst (run_call call m)
     = Some (HTTPCallErrorError (http_error_msg response)
               (status_code response)
               (default PNone (document !! "message"))))
  /\ (str_contains "application/json" content_type = false ->
      fst (run_call call m)
      = Some (HTTPCallErrorError (http_error_msg response)
                (status_code response) (PStr (text response)))).
Proof.
  intros Hsent Hserver Hstatus Hheader.
  rewrite (run_call_error _ _ _ _ _ Hsent Hserver Hstatus).
  cbn. unfold translate_http_error. rewrite Hheader. split.
  - intros -> document Hjson. unfold response_json. by rewrite Hjson.
  - by intros ->.
Qed.

(** C10, as the code has it: when the last request a call sent was answered
    with an error status (400 to 599) by a response that has no
    [Content-Type] header, the call raises the [TypeError] of the membership
    test on [None], not an [HTTPCallErrorError]. *)
Theorem missing_content_type_is_type_error (call : Call) (m : Machine)
    (earlier : list Request) (rq : Request) (response : Response) :
  sent (snd (run_call call m)) = sent m ++ earlier ++ [rq] ->
  server (sent m ++ earlier) rq = Ok response ->
  400 <= status_code response < 600 ->
  headers_get "Content-Type" response = None ->
  fst (run_call call m)
  = Some (TypeError "argument of type 'NoneType' is not iterable").
Proof.
  intros Hsent Hserver Hstatus Hheader.
  rewrite (run_call_error _ _ _ _ _ Hsent Hserver Hstatus).
  cbn. unfold translate_http_error. by rewrite Hheader.
Qed.

(** ** Registry operations and the session state *)

(** C6, as the code has it: a [load_model] or [unload_model] call whose
    exchange fails, by a transport failure or by an error status (400 to
    599, on which [raise_for_status] raises), raises and leaves the client
    object, hence the default model identifier and category, as it was. *)
Theorem failed_call_keeps_session (m : Machine) (rq : Request) :
  exchange_failed (server (sent m) rq) ->
  (forall model_id type set_as_default,
      sent (snd (load_model model_id type set_as_default m)) = sent m ++ [rq] ->
      (exists e, fst (load_model model_id type set_as_default m) = Raise e)
      /\ self (snd (load_model model_id type set_as_default m)) = self m)
  /\ (forall model_id,
      sent (snd (unload_model model_id m)) = sent m ++ [rq] ->
      (exists e, fst (unload_model model_id m) = Raise e)
      /\ self (snd (unload_model model_id m)) = self m).
Proof.
  intros Hfail. split.
  - intros model_id type set_as_default. unfold load_model. run.
    match goal with |- context [server (sent m) ?r] => set (issued := r) end.
    intros Hsent.
    assert (issued = rq) as ->.
    { destruct (server (sent m) issued) as [response|]; cbn in Hsent.
      - destruct (raise_for_status response); cbn in Hsent;
          [destruct (response_json response); cbn in Hsent;
           [destruct set_as_default; cbn in Hsent;
            destruct (RegisteredModels_from_dict _); cbn in Hsent|]|];
          by apply app_inj_tail in Hsent as [_ ?].
      - by apply app_inj_tail in Hsent as [_ ?]. }
    clear Hsent. unfold exchange_failed in Hfail.
    destruct (server (sent m) rq) as [response|e]; cbn.
    + destruct Hfail as [error ->]. cbn. split; [eauto|done].
    + split; [eauto|done].
  - intros model_id. unfold unload_model. run.
    match goal with |- context [server (sent m) ?r] => set (issued := r) end.
    intros Hsent.
    assert (issued = rq) as ->.
    { destruct (server (sent m) issued) as [response|]; cbn in Hsent.
      - destruct (raise_for_status response); cbn in Hsent;
          [destruct (response_json response); cbn in Hsent;
           [destruct (decide _); cbn in Hsent;
            destruct (RegisteredModels_from_dict _); cbn in Hsent|]|];
          by apply app_inj_tail in Hsent as [_ ?].
      - by apply app_inj_tail in Hsent as [_ ?]. }
    clear Hsent. unfold exchange_failed in Hfail.
    destruct (server (sent m) rq) as [response|e]; cbn.
    + destruct Hfail as [error ->]. cbn. split; [eauto|done].
    + split; [eauto|done].
Qed.

(** C7: what the registry operations do to the client object when they
    succeed.  [load_model] with [set_as_default] makes the loaded
    identifier the default identifier and the given category the default
    category; [unload_model] sets the default identifier to [None] and the
    default category to its initial value when the unloaded identifier is
    the current default, and changes nothing otherwise; and
    [unload_all_models] does so whatever the default was.  The address, the
    credential, the configuration and the mode are never touched. *)
Theorem registry_effects_on_success (m m' : Machine)
    (registry : RegisteredModels) :
  (forall model_id type,
      load_model model_id type true m = (Ok registry, m') ->
      self m'
      = {| api_url := api_url (self m);
           api_key := api_key (self m);
           inference_configuration := inference_configuration (self m);
           client_mode := client_mode (self m);
           model_type := type;
           selected_model := Some model_id |})
  /\ (forall model_id,
      unload_model model_id m = (Ok registry, m') ->
      (Some model_id = selected_model (self m) ->
       self m'
       = {| api_url := api_url (self m);
            api_key := api_key (self m);
            inference_configuration := inference_configuration (self m);
            client_mode := client_mode (self m);
            model_type := OBJECT_DETECTION;
            selected_model := None |})
      /\ (Some model_id <> selected_model (self m) -> self m' = self m))
  /\ (unload_all_models m = (Ok registry, m') ->
      self m'
      = {| api_url := api_url (self m);
           api_key := api_key (self m);
           inference_configuration := inference_configuration (self m);
           client_mode := client_mode (self m);
           model_type := OBJECT_DETECTION;
           selected_model := None |}).
Proof.
  split; [|split].
  - intros model_id type. unfold load_model. run.
    destruct (server (sent m) _) as [response|]; cbn; [|done].
    destruct (raise_for_status response); cbn; [|done].
    destruct (response_json response); cbn; [|done].
    destruct (RegisteredModels_from_dict _); cbn; [|done].
    by intros [= _ <-].
  - intros model_id. unfold unload_model. run.
    destruct (server (sent m) _) as [response|]; cbn; [|done].
    destruct (raise_for_status response); cbn; [|done].
    destruct (response_json response); cbn; [|done].
    destruct (decide _) as [Heq|Hne]; cbn;
      (destruct (RegisteredModels_from_dict _); cbn; [|done]);
      intros [= _ <-]; cbn; by split.
  - unfold unload_all_models. run.
    destruct (server (sent m) _) as [response|]; cbn; [|done].
    destruct (raise_for_status response); cbn; [|done].
    destruct (response_json response); cbn; [|done].
    destruct (RegisteredModels_from_dict _); cbn; [|done].
    by intros [= _ <-].
Qed.

(** ** The streaming generator *)

Lemma predicted_length type model_id m frames predictions m' :
  predicted type model_id m frames predictions m' ->
  length predictions = length frames.
Proof. induction 1; cbn; [done|by f_equal]. Qed.

(** The first pull of a new generator opens the source; from then on it is
    a suspended one. *)
Lemma pulls_created n input_uri type model_id m :
  pulls (S n) (Created input_uri type model_id) m
  = pulls (S n)
      (Suspended
         (load_stream_inference_input input_uri
            (image_extensions_for_directory_scan
               (inference_configuration (self m))))
         type model_id) m.
Proof. done. Qed.

(** Pulling a suspended generator through frames whose predictions return
    hands over their pairs, in order, and goes on with the rest. *)
Lemma pulls_predicted type model_id m consumed predictions m1 remaining extra :
  predicted type model_id m consumed predictions m1 ->
  pulls (length consumed + extra)
    (Suspended (consumed ++ remaining) type model_id) m
  = (let '(outcomes, g, m2) :=
       pulls extra (Suspended remaining type model_id) m1 in
     (map yield (zip consumed predictions) ++ outcomes, g, m2)).
Proof.
  induction 1 as [m|m frame frames prediction predictions m1 m2 Hpredict _ IH].
  - cbn. by destruct (pulls extra _ m) as [[outcomes g] m2].
  - cbn [length Nat.add pulls next resume app]. rewrite Hpredict.
    rewrite IH. by destruct (pulls extra _ m2) as [[outcomes g] m3].
Qed.

(** C8, as the code has it.  Let the source give the frames [frames].  As
    long as the predictions return, the pulls hand over the pairs one at a
    time, in the order of the source, each with the frame of its position:
    after as many pulls as there are frames in [consumed], only these
    frames were taken from the source and predicted.  When every prediction
    returns, there are exactly as many pairs as frames and the next pull
    ends the stream.  When a prediction raises, the pull raises its
    exception and the stream is over. *)
Theorem stream_pairs_in_source_order (m : Machine) (input_uri : string)
    (type : option ModelType) (model_id : option string) :
  let frames :=
    load_stream_inference_input input_uri
      (image_extensions_for_directory_scan
         (inference_configuration (self m))) in
  let stream := predict_on_stream input_uri type model_id in
  (forall consumed remaining predictions m1,
      frames = consumed ++ remaining ->
      consumed <> [] ->
      predicted type model_id m consumed predictions m1 ->
      pulls (length consumed) stream m
      = (map yield (zip consumed predictions),
         Suspended remaining type model_id, m1))
  /\ (forall predictions m1,
      predicted type model_id m frames predictions m1 ->
      pulls (S (length frames)) stream m
      = (map yield (zip frames predictions) ++ [Ok None], Finished, m1)
      /\ length (zip frames predictions) = length frames
      /\ (zip frames predictions).*1 = frames)
  /\ (forall consumed frame remaining predictions m1 e m2,
      frames = consumed ++ frame :: remaining ->
      predicted type model_id m consumed predictions m1 ->
      predict (inl frame) type model_id m1 = (Raise e, m2) ->
      pulls (S (length consumed)) stream m
      = (map yield (zip consumed predictions) ++ [Raise e], Finished, m2)).
Proof.
  intros frames stream. split; [|split].
  - intros consumed remaining predictions m1 Hframes Hne Hpredicted.
    destruct consumed as [|frame consumed]; [done|].
    unfold stream, predict_on_stream. cbn [length]. rewrite pulls_created.
    fold frames. rewrite Hframes.
    rewrite <- (Nat.add_0_r (S (length consumed))).
    rewrite (pulls_predicted _ _ _ (frame :: consumed) _ _ _ _ Hpredicted).
    cbn. by rewrite app_nil_r.
  - intros predictions m1 Hpredicted.
    pose proof (predicted_length _ _ _ _ _ _ Hpredicted) as Hlen.
    split; [|split].
    + unfold stream, predict_on_stream. rewrite pulls_created. fold frames.
      rewrite <- Nat.add_1_r. rewrite <- (app_nil_r frames) at 2.
      by rewrite (pulls_predicted _ _ _ _ _ _ _ _ Hpredicted).
    + rewrite length_zip_with. lia.
    + apply fst_zip. lia.
  - intros consumed frame remaining predictions m1 e m2 Hframes Hpredicted
      Hraise.
    unfold stream, predict_on_stream. rewrite pulls_created. fold frames.
    rewrite Hframes, <- Nat.add_1_r.
    rewrite (pulls_predicted _ _ _ _ _ _ _ _ Hpredicted).
    cbn. by rewrite Hraise.
Qed.

End Properties.

(** * The properties on concrete runs *)

(** ** Identifiers *)

Lemma legacy_identifier_check_witness :
  @predict E_accepting (inl "img") None (Some "abc")
    (sample_machine accepting LEGACY None)
  = (Raise (InvalidModelIdentifier "Invalid model identifier: abc in use."),
     sample_machine accepting LEGACY None).
Proof.
  apply (@legacy_identifier_check E_accepting
           (sample_machine accepting LEGACY None) (inl "img") None
           (Some "abc") ["img"] "abc");
    [reflexivity|reflexivity|reflexivity|vm_compute; discriminate].
Defined.

(** The identifier [a/] has an empty second segment, yet a legacy call with
    it passes the check and sends its request, to [/a/]. *)
Lemma trailing_slash_identifier_accepted :
  ~ two_nonempty_segments "a/"
  /\ fst (@predict E_accepting (inl "img") None (Some "a/")
            (sample_machine accepting LEGACY None))
     = Ok (inl (PDict ∅))
  /\ map req_url
       (sent (snd (@predict E_accepting (inl "img") None (Some "a/")
                     (sample_machine accepting LEGACY None))))
     = ["http://host/a/"].
Proof.
  split; [|split; reflexivity].
  intros (dataset & version & Heq & Hdataset & Hversion & _).
  destruct dataset as [|c dataset]; [done|].
  injection Heq as _ Heq.
  destruct dataset as [|c' dataset]; cbn in Heq.
  - injection Heq as Heq. by symmetry in Heq.
  - injection Heq as _ Heq. by destruct dataset.
Qed.

Lemma missing_identifier_witness :
  @predict E_accepting (inl "img") None None
    (sample_machine accepting LEGACY None)
  = (Raise (AttributeError "'NoneType' object has no attribute 'split'"),
     sample_machine accepting LEGACY None)
  /\ exists rq later payload,
      sent (snd (@predict E_accepting (inl "img") None None
                   (sample_machine accepting NEW None)))
      = rq :: later
      /\ req_json rq = Some (PDict payload)
      /\ payload !! "model_id" = Some PNone.
Proof.
  split.
  - apply (proj1 (@missing_identifier E_accepting
                    (sample_machine accepting LEGACY None) (inl "img") None
                    None ["img"] eq_refl eq_refl)).
    reflexivity.
  - destruct (proj2 (@missing_identifier E_accepting
                       (sample_machine accepting NEW None) (inl "img") None
                       None ["img"] eq_refl eq_refl) eq_refl)
      as (rq & later & payload & Hsent & Hjson & Hid); [discriminate|].
    exists rq, later, payload. split; [exact Hsent|]. split; [exact Hjson|].
    apply Hid. reflexivity.
Defined.

(** With no identifier at all, a call in new mode raises nothing: it sends
    its request, whose [model_id] entry is [None], and returns what the
    server answered. *)
Lemma new_mode_sends_without_identifier :
  fst (@predict E_accepting (inl "img") None None
         (sample_machine accepting NEW None))
  = Ok (inl (PDict ∅))
  /\ map (fun rq => py_getitem (default PNone (req_json rq)) "model_id")
       (sent (snd (@predict E_accepting (inl "img") None None
                     (sample_machine accepting NEW None))))
     = [Ok PNone].
Proof. split; reflexivity. Qed.

Lemma empty_batch_gives_empty_sequence_witness :
  @predict E_accepting (inr []) None None (sample_machine accepting NEW None)
  = (Ok (inr []), sample_machine accepting NEW None)
  /\ @predict E_accepting (inr []) None (Some "a/b")
       (sample_machine accepting LEGACY None)
     = (Ok (inr []), sample_machine accepting LEGACY None).
Proof.
  split.
  - apply (proj1 (@empty_batch_gives_empty_sequence E_accepting
                    (sample_machine accepting NEW None) (inr []) None None
                    eq_refl)).
    reflexivity.
  - apply (proj2 (@empty_batch_gives_empty_sequence E_accepting
                    (sample_machine accepting LEGACY None) (inr []) None
                    (Some "a/b") eq_refl) eq_refl "a/b");
      reflexivity.
Defined.

(** A legacy call whose input encodes to no element still checks the
    identifier: with [abc] it raises instead of returning the empty
    sequence. *)
Lemma empty_batch_with_bad_identifier_raises :
  @load_static_inference_input E_accepting (inr []) = Ok []
  /\ fst (@predict E_accepting (inr []) None (Some "abc")
            (sample_machine accepting LEGACY None))
     = Raise (InvalidModelIdentifier "Invalid model identifier: abc in use.").
Proof. split; reflexivity. Qed.

(** ** Error statuses *)

Lemma error_status_translated_witness :
  fst (@run_call E_not_found (LoadModel "a/1" CLASSIFICATION true)
         (sample_machine (always (Ok not_found)) NEW None))
  = Some (HTTPCallErrorError "HTTP error" 404 (PStr "no such model"))
  /\ fst (@run_call E_unavailable (UnloadModel "a/1")
            (sample_machine (always (Ok unavailable)) NEW None))
     = Some (HTTPCallErrorError "HTTP error" 503 (PStr "try later")).
Proof.
  split.
  - apply (proj1 (@error_status_translated E_not_found
                    (LoadModel "a/1" CLASSIFICATION true)
                    (sample_machine (always (Ok not_found)) NEW None) []
                    (mkRequest POST "http://host/model/add" DEFAULT_HEADERS ∅
                       (Some (PDict {[ "model_id" := PStr "a/1";
                                       "api_key" := PStr "key" ]}))
                       None)
                    not_found "application/json"
                    eq_refl eq_refl ltac:(cbn; lia) eq_refl)
             eq_refl {[ "message" := PStr "no such model" ]} eq_refl).
  - apply (proj2 (@error_status_translated E_unavailable
                    (UnloadModel "a/1")
                    (sample_machine (always (Ok unavailable)) NEW None) []
                    (mkRequest POST "http://host/model/remove" DEFAULT_HEADERS
                       ∅ (Some (PDict {[ "model_id" := PStr "a/1" ]})) None)
                    unavailable "text/plain"
                    eq_refl eq_refl ltac:(cbn; lia) eq_refl)
             eq_refl).
Defined.

(** A response with status 300 is outside the 2xx range, yet the call it
    answers raises nothing.  And a 404 response declared as JSON whose body
    is a JSON array makes the call raise an [AttributeError]. *)
Lemma redirect_status_not_translated :
  ~ (200 <= status_code (json_response 300 (PDict ∅)) < 300)
  /\ fst (@run_call (E_scripted [json_response 300 (PDict ∅)]) GetServerInfo
            (sample_machine (scripted [json_response 300 (PDict ∅)]) NEW None))
     = None
  /\ fst (@run_call (E_scripted [json_response 404 (PList [])]) GetServerInfo
            (sample_machine (scripted [json_response 404 (PList [])]) NEW None))
     = Some (AttributeError "'list' object has no attribute 'get'").
Proof. split; [cbn; lia|split; reflexivity]. Qed.

Lemma missing_content_type_is_type_error_witness :
  fst (@run_call (E_bare 404) UnloadAllModels
         (sample_machine (always (Ok (bare_response 404))) NEW None))
  = Some (TypeError "argument of type 'NoneType' is not iterable").
Proof.
  apply (@missing_content_type_is_type_error (E_bare 404) UnloadAllModels
           (sample_machine (always (Ok (bare_response 404))) NEW None) []
           (mkRequest POST "http://host/model/clear" ∅ ∅ None None)
           (bare_response 404) eq_refl eq_refl ltac:(cbn; lia) eq_refl).
Defined.

(** A response with status 300 and no [Content-Type] header: the call
    raises nothing at all. *)
Lemma redirect_without_content_type_passes :
  ~ (200 <= status_code (bare_response 300) < 300)
  /\ headers_get "Content-Type" (bare_response 300) = None
  /\ fst (@run_call (E_bare 300) UnloadAllModels
            (sample_machine (always (Ok (bare_response 300))) NEW None))
     = None.
Proof. split; [cbn; lia|split; reflexivity]. Qed.

(** ** Results *)

Lemma predict_result_shape_witness :
  (exists document,
      fst (@predict E_accepting (inl "i1") None (Some "a/b")
             (sample_machine accepting LEGACY None))
      = Ok (inl document))
  /\ (exists documents,
      length documents = 2%nat
      /\ fst (@predict E_accepting (inr ["i1"; "i2"]) None None
                (sample_machine accepting NEW None))
         = Ok (inr documents)).
Proof.
  split.
  - destruct (@predict_result_shape E_accepting
                (sample_machine accepting LEGACY None)
                (snd (@predict E_accepting (inl "i1") None (Some "a/b")
                        (sample_machine accepting LEGACY None)))
                (inl "i1") None (Some "a/b") ["i1"] (inl (PDict ∅))
                eq_refl eq_refl)
      as (requests & documents & _ & _ & _ & _ & Hone & _).
    destruct (Hone eq_refl) as (document & _ & Hr).
    exists document. rewrite <- Hr. reflexivity.
  - destruct (@predict_result_shape E_accepting
                (sample_machine accepting NEW None)
                (snd (@predict E_accepting (inr ["i1"; "i2"]) None None
                        (sample_machine accepting NEW None)))
                (inr ["i1"; "i2"]) None None ["i1"; "i2"]
                (inr [PDict ∅; PDict ∅]) eq_refl eq_refl)
      as (requests & documents & _ & _ & _ & Hlen & _ & Htwo).
    exists documents. split; [exact Hlen|].
    rewrite <- Htwo; [reflexivity|cbn; lia].
Defined.

Lemma new_response_normalised_witness :
  @new_result E_accepting (self (sample_machine accepting NEW None))
    (json_response 200 (PDict visualised))
  = Ok (PDict (<[ "visualization" := PImage "aW1n" ]> visualised))
  /\ @new_result E_accepting (self (sample_machine accepting NEW None))
       (json_response 200 (PDict not_visualised))
     = Ok (PDict not_visualised)
  /\ @new_result E_accepting (self (sample_machine accepting NEW None))
       (json_response 200 (PStr "ok"))
     = Raise (AttributeError "'str' object has no attribute 'get'").
Proof.
  split; [|split].
  - apply (proj1 (proj2 (proj2 (@new_response_normalised E_accepting
                                  (self (sample_machine accepting NEW None))
                                  (json_response 200 (PDict visualised)))))
             visualised (PStr "aW1n") (PImage "aW1n")).
    + reflexivity.
    + vm_compute. reflexivity.
    + discriminate.
    + reflexivity.
  - apply (proj2 (proj2 (proj2 (@new_response_normalised E_accepting
                                  (self (sample_machine accepting NEW None))
                                  (json_response 200
                                     (PDict not_visualised)))))
             not_visualised eq_refl).
    right. vm_compute. reflexivity.
  - apply (proj1 (proj2 (@new_response_normalised E_accepting
                           (self (sample_machine accepting NEW None))
                           (json_response 200 (PStr "ok"))))
             (PStr "ok") eq_refl).
    discriminate.
Defined.

(** A response of the new protocol whose body is the JSON array [[]]: the
    document has no [visualization] entry, yet it is not returned: the call
    raises an [AttributeError]. *)
Lemma array_document_is_not_returned :
  json (json_response 200 (PList [])) = Some (PList [])
  /\ @raise_for_status E_accepting (json_response 200 (PList [])) = Ok tt
  /\ @new_result E_accepting (self (sample_machine accepting NEW None))
       (json_response 200 (PList []))
     = Raise (AttributeError "'list' object has no attribute 'get'")
  /\ fst (@predict (E_scripted [json_response 200 (PList [])]) (inl "img")
            None (Some "a/1")
            (sample_machine (scripted [json_response 200 (PList [])]) NEW
               None))
     = Raise (AttributeError "'list' object has no attribute 'get'").
Proof. repeat split; reflexivity. Qed.

(** ** Registry operations *)

Lemma failed_call_keeps_session_witness :
  self (snd (@load_model E_not_found "a/1" CLASSIFICATION true
               (sample_machine (always (Ok not_found)) NEW None)))
  = self (sample_machine (always (Ok not_found)) NEW None)
  /\ self (snd (@unload_model E_unreachable "a/1"
                  (sample_machine (scripted []) NEW (Some "a/1"))))
     = self (sample_machine (scripted []) NEW (Some "a/1")).
Proof.
  split.
  - apply (proj1 (@failed_call_keeps_session E_not_found
                    (sample_machine (always (Ok not_found)) NEW None)
                    (mkRequest POST "http://host/model/add" DEFAULT_HEADERS ∅
                       (Some (PDict {[ "model_id" := PStr "a/1";
                                       "api_key" := PStr "key" ]}))
                       None)
                    (ex_intro _ (HTTPError "HTTP error" not_found) eq_refl))
             "a/1" CLASSIFICATION true eq_refl).
  - apply (proj2 (@failed_call_keeps_session E_unreachable
                    (sample_machine (scripted []) NEW (Some "a/1"))
                    (mkRequest POST "http://host/model/remove" DEFAULT_HEADERS
                       ∅ (Some (PDict {[ "model_id" := PStr "a/1" ]})) None)
                    I)
             "a/1" eq_refl).
Defined.

(** A 302 answer is outside the 2xx range, but [load_model] does not fail
    on it: it returns and sets the default.  And when the snapshot of the
    answer cannot be built, the call fails after the default was set: the
    session state is not what it was. *)
Lemma redirected_load_changes_session :
  ~ (200 <= status_code (json_response 302 (PDict ∅)) < 300)
  /\ fst (@load_model E_found_elsewhere "a/1" CLASSIFICATION true
            (sample_machine found_elsewhere NEW None))
     = Ok (PDict ∅)
  /\ selected_model
       (self (snd (@load_model E_found_elsewhere "a/1" CLASSIFICATION true
                     (sample_machine found_elsewhere NEW None))))
     = Some "a/1"
  /\ fst (@load_model E_strict_found_elsewhere "a/1" CLASSIFICATION true
            (@mkMachine E_strict_found_elsewhere
               (@mkClient E_strict_found_elsewhere "http://host" "key" tt NEW
                  OBJECT_DETECTION None) []))
     = Raise (OtherException "KeyError" "models")
  /\ selected_model
       (self (snd (@load_model E_strict_found_elsewhere "a/1" CLASSIFICATION
                     true
                     (@mkMachine E_strict_found_elsewhere
                        (@mkClient E_strict_found_elsewhere "http://host" "key"
                           tt NEW OBJECT_DETECTION None) []))))
     = Some "a/1"
  /\ fst (@unload_model E_strict_found_elsewhere "a/1"
            (@mkMachine E_strict_found_elsewhere
               (@mkClient E_strict_found_elsewhere "http://host" "key" tt NEW
                  CLASSIFICATION (Some "a/1")) []))
     = Raise (OtherException "KeyError" "models")
  /\ selected_model
       (self (snd (@unload_model E_strict_found_elsewhere "a/1"
                     (@mkMachine E_strict_found_elsewhere
                        (@mkClient E_strict_found_elsewhere "http://host" "key"
                           tt NEW CLASSIFICATION (Some "a/1")) []))))
     = None.
Proof. split; [cbn; lia|repeat split; reflexivity]. Qed.

Lemma registry_effects_on_success_witness :
  self (snd (@load_model E_accepting "a/1" CLASSIFICATION true
               (sample_machine accepting NEW None)))
  = @mkClient E_accepting "http://host" "key" tt NEW CLASSIFICATION
      (Some "a/1")
  /\ self (snd (@unload_model E_accepting "a/1"
                  (sample_machine accepting NEW (Some "a/1"))))
     = @mkClient E_accepting "http://host" "key" tt NEW OBJECT_DETECTION None
  /\ self (snd (@unload_model E_accepting "b/2"
                  (sample_machine accepting NEW (Some "a/1"))))
     = self (sample_machine accepting NEW (Some "a/1"))
  /\ self (snd (@unload_all_models E_accepting
                  (sample_machine accepting NEW (Some "a/1"))))
     = @mkClient E_accepting "http://host" "key" tt NEW OBJECT_DETECTION None.
Proof.
  split; [|split; [|split]].
  - apply (proj1 (@registry_effects_on_success E_accepting
                    (sample_machine accepting NEW None)
                    (snd (@load_model E_accepting "a/1" CLASSIFICATION true
                            (sample_machine accepting NEW None)))
                    (PDict ∅))
             "a/1" CLASSIFICATION eq_refl).
  - apply (proj1 (proj2 (@registry_effects_on_success E_accepting
                           (sample_machine accepting NEW (Some "a/1"))
                           (snd (@unload_model E_accepting "a/1"
                                   (sample_machine accepting NEW (Some "a/1"))))
                           (PDict ∅)))
             "a/1" eq_refl); reflexivity.
  - apply (proj1 (proj2 (@registry_effects_on_success E_accepting
                           (sample_machine accepting NEW (Some "a/1"))
                           (snd (@unload_model E_accepting "b/2"
                                   (sample_machine accepting NEW (Some "a/1"))))
                           (PDict ∅)))
             "b/2" eq_refl); discriminate.
  - apply (proj2 (proj2 (@registry_effects_on_success E_accepting
                           (sample_machine accepting NEW (Some "a/1"))
                           (snd (@unload_all_models E_accepting
                                   (sample_machine accepting NEW (Some "a/1"))))
                           (PDict ∅)))
             eq_refl).
Defined.

(** ** The streaming generator *)

Lemma stream_pairs_in_source_order_witness :
  fst (@pulls E_accepting 1 (predict_on_stream "f1,f2" None (Some "a/b"))
         (sample_machine accepting LEGACY None))
  = ([Ok (Some ("f1", inl (PDict ∅)))], @Suspended E_accepting ["f2"] None (Some "a/b"))
  /\ fst (@pulls E_accepting 3 (predict_on_stream "f1,f2" None (Some "a/b"))
            (sample_machine accepting LEGACY None))
     = ([Ok (Some ("f1", inl (PDict ∅))); Ok (Some ("f2", inl (PDict ∅)));
         Ok None], @Finished E_accepting).
Proof.
  pose (m0 := sample_machine accepting LEGACY None).
  pose (m1 := snd (@predict E_accepting (inl "f1") None (Some "a/b") m0)).
  pose (m2 := snd (@predict E_accepting (inl "f2") None (Some "a/b") m1)).
  assert (@predicted E_accepting None (Some "a/b") m0 ["f1"]
            [inl (PDict ∅)] m1) as Hone.
  { apply predicted_cons with (m1 := m1); [reflexivity|constructor]. }
  assert (@predicted E_accepting None (Some "a/b") m0 ["f1"; "f2"]
            [inl (PDict ∅); inl (PDict ∅)] m2) as Htwo.
  { apply predicted_cons with (m1 := m1); [reflexivity|].
    apply predicted_cons with (m1 := m2); [reflexivity|constructor]. }
  pose proof (@stream_pairs_in_source_order E_accepting m0 "f1,f2" None
                (Some "a/b")) as [Hlazy [Hall _]].
  split.
  - exact (f_equal fst (Hlazy ["f1"] ["f2"] [inl (PDict ∅)] m1 eq_refl
                            ltac:(discriminate) Hone)).
  - exact (f_equal fst
             (proj1 (Hall [inl (PDict ∅); inl (PDict ∅)] m2 Htwo))).
Defined.

(** A source of one frame and a server that answers 503: the first pull
    raises, the second finds the stream over, and no pair was handed
    over. *)
Lemma stream_stops_at_failed_prediction :
  @load_stream_inference_input E_unavailable "f1"
    (@image_extensions_for_directory_scan E_unavailable tt)
  = ["f1"]
  /\ fst (@pulls E_unavailable 2 (predict_on_stream "f1" None (Some "a/b"))
            (sample_machine (always (Ok unavailable)) LEGACY None))
     = ([Raise (HTTPCallErrorError "HTTP error" 503 (PStr "try later"));
         Ok None], @Finished E_unavailable).
Proof. split; reflexivity. Qed.

(** * Further properties *)

Section Coverage.
Context {env : Environment}.

Ltac run :=
  unfold wrap_errors, bind, get_self, set_self, ret, raise, lift,
    requests_post, requests_get, send in *;
  cbn [self sent fst snd] in *.

(** ** What the calls leave alone *)

Lemma wrap_errors_machine {A} (f : M A) m :
  snd (wrap_errors f m) = snd (f m).
Proof. unfold wrap_errors. by destruct (f m) as [[a|e] m']. Qed.

Lemma finish_machine translate r : snd (finish translate r) = snd r.
Proof. done. Qed.

(** X1: an inference call never changes the client object, whatever its
    mode, its arguments and its outcome; neither does a pull of the
    stream. *)
Theorem inference_keeps_client (m : Machine) :
  (forall input type model_id,
      self (snd (predict input type model_id m)) = self m)
  /\ (forall g, self (snd (next g m)) = self m).
Proof.
  assert (forall input type model_id,
             self (snd (predict input type model_id m)) = self m) as Hpredict.
  { intros input type model_id.
    destruct (load_static_inference_input input) as [elements|e] eqn:Hencoded.
    - destruct (client_mode (self m)) eqn:Hmode.
      + rewrite predict_new by done.
        rewrite (wrap_errors_finish _ _ _
                   (infer_from_new_api_run _ _ _ _ _ Hencoded)).
        rewrite finish_machine. apply exchange_loop_run.
      + rewrite predict_legacy, wrap_errors_machine by done.
        destruct (py_or model_id (selected_model (self m))) as [id|] eqn:Hid.
        * destruct (str_split "/" id) as [|dataset [|version [|]]] eqn:Hsplit.
          3: { rewrite (infer_from_legacy_api_run _ _ _ _ _ _ _
                          Hencoded Hid Hsplit).
               rewrite finish_machine. apply exchange_loop_run. }
          all: unfold infer_from_legacy_api; run;
            rewrite Hencoded, Hid; cbn; by rewrite Hsplit.
        * unfold infer_from_legacy_api. run. by rewrite Hencoded, Hid.
    - unfold predict, infer_from_legacy_api, infer_from_new_api. run.
      destruct (client_mode (self m)); cbn; by rewrite Hencoded. }
  split; [done|].
  intros g. unfold next, resume.
  destruct g as [input_uri type model_id|frames type model_id|]; [| |done].
  - destruct (load_stream_inference_input _ _) as [|frame rest]; [done|].
    specialize (Hpredict (inl frame) type model_id).
    by destruct (predict (inl frame) type model_id m) as [[prediction|e] m'].
  - destruct frames as [|frame rest]; [done|].
    specialize (Hpredict (inl frame) type model_id).
    by destruct (predict (inl frame) type model_id m) as [[prediction|e] m'].
Qed.

(** X2: the calls that only read the registry, and [load_model] without
    [set_as_default], never change the client object, whatever the server
    answers. *)
Theorem reading_calls_keep_client (m : Machine) :
  self (snd (get_server_info m)) = self m
  /\ self (snd (list_loaded_models m)) = self m
  /\ (forall model_id type,
        self (snd (load_model model_id type false m)) = self m).
Proof.
  split; [|split; [|intros model_id type]].
  - unfold get_server_info. run.
    destruct (server (sent m) _) as [response|]; cbn; [|done].
    destruct (raise_for_status response); cbn; [|done].
    destruct (response_json response); cbn; [|done].
    by destruct (ServerInfo_from_dict _).
  - unfold list_loaded_models. run.
    destruct (server (sent m) _) as [response|]; cbn; [|done].
    destruct (raise_for_status response); cbn; [|done].
    destruct (response_json response); cbn; [|done].
    by destruct (RegisteredModels_from_dict _).
  - unfold load_model. run.
    destruct (server (sent m) _) as [response|]; cbn; [|done].
    destruct (raise_for_status response); cbn; [|done].
    destruct (response_json response); cbn; [|done].
    by destruct (RegisteredModels_from_dict _).
Qed.

(** X3: a registry call sends exactly one request, whatever the server
    answers: a failure is not retried.  The two reading calls are [GET]s
    with no body; of the three others only [load_model] sends the
    credential. *)
Theorem registry_call_sends_one_request (m : Machine) :
  sent (snd (get_server_info m))
  = sent m ++ [mkRequest GET (api_url (self m) +:+ "/info") ∅ ∅ None None]
  /\ sent (snd (list_loaded_models m))
     = sent m
       ++ [mkRequest GET (api_url (self m) +:+ "/model/registry") ∅ ∅
             None None]
  /\ (forall model_id type set_as_default,
        sent (snd (load_model model_id type set_as_default m))
        = sent m
          ++ [mkRequest POST (api_url (self m) +:+ "/model/add")
                DEFAULT_HEADERS ∅
                (Some (PDict {[ "model_id" := PStr model_id;
                                "api_key" := PStr (api_key (self m)) ]}))
                None])
  /\ (forall model_id,
        sent (snd (unload_model model_id m))
        = sent m
          ++ [mkRequest POST (api_url (self m) +:+ "/model/remove")
                DEFAULT_HEADERS ∅
                (Some (PDict {[ "model_id" := PStr model_id ]})) None])
  /\ sent (snd (unload_all_models m))
     = sent m
       ++ [mkRequest POST (api_url (self m) +:+ "/model/clear") ∅ ∅
             None None].
Proof.
  repeat split; [| |intros model_id type set_as_default|intros model_id|].
  - unfold get_server_info. run.
    destruct (server (sent m) _) as [response|]; cbn; [|done].
    destruct (raise_for_status response); cbn; [|done].
    destruct (response_json response); cbn; [|done].
    by destruct (ServerInfo_from_dict _).
  - unfold list_loaded_models. run.
    destruct (server (sent m) _) as [response|]; cbn; [|done].
    destruct (raise_for_status response); cbn; [|done].
    destruct (response_json response); cbn; [|done].
    by destruct (RegisteredModels_from_dict _).
  - unfold load_model. run.
    destruct (server (sent m) _) as [response|]; cbn; [|done].
    destruct (raise_for_status response); cbn; [|done].
    destruct (response_json response); cbn; [|done].
    destruct set_as_default; cbn; by destruct (RegisteredModels_from_dict _).
  - unfold unload_model. run.
    destruct (server (sent m) _) as [response|]; cbn; [|done].
    destruct (raise_for_status response); cbn; [|done].
    destruct (response_json response); cbn; [|done].
    destruct (decide _); cbn; by destruct (RegisteredModels_from_dict _).
  - unfold unload_all_models. run.
    destruct (server (sent m) _) as [response|]; cbn; [|done].
    destruct (raise_for_status response); cbn; [|done].
    destruct (response_json response); cbn; [|done].
    by destruct (RegisteredModels_from_dict _).
Qed.

(** ** The error translator *)

Lemma translate_error_not_caught e : is_caught (translate_error e) = false.
Proof.
  destruct e as [d response| | | | | | |]; try done.
  cbn. unfold translate_http_error.
  destruct (headers_get _ _); [|done].
  destruct (str_contains _ _); [|done].
  unfold response_json. destruct (json response) as [v|]; [|done].
  by destruct v.
Qed.

Lemma wrap_errors_raised {A} (f : M A) m :
  fst (raised (wrap_errors f m)) = translate_error <$> fst (raised (f m)).
Proof. unfold wrap_errors, raised. by destruct (f m) as [[a|e] m']. Qed.

Lemma predict_raised input type model_id m :
  exists o, fst (raised (predict input type model_id m)) = translate_error <$> o.
Proof. unfold predict. rewrite wrap_errors_raised. eauto. Qed.

(** X4: no call lets an exception of a class [wrap_errors] catches out: a
    call never raises [HTTPError] nor the built-in [ConnectionError]. *)
Theorem caught_classes_never_escape (call : Call) (m : Machine) :
  from_option is_caught false (fst (run_call call m)) = false.
Proof.
  assert (forall o : option exn,
             from_option is_caught false (translate_error <$> o) = false)
    as Htranslated.
  { intros [e|]; [apply translate_error_not_caught|done]. }
  destruct call as [| |model_id type set_as_default|model_id| |input type id|g];
    cbn [run_call].
  - unfold get_server_info. by rewrite wrap_errors_raised.
  - unfold list_loaded_models. by rewrite wrap_errors_raised.
  - unfold load_model. by rewrite wrap_errors_raised.
  - unfold unload_model. by rewrite wrap_errors_raised.
  - unfold unload_all_models. by rewrite wrap_errors_raised.
  - by destruct (predict_raised input type id m) as [o ->].
  - unfold next, resume.
    destruct g as [input_uri type model_id|frames type model_id|]; [| |done].
    + destruct (load_stream_inference_input _ _) as [|frame rest]; [done|].
      destruct (predict_raised (inl frame) type model_id m) as [o Ho].
      unfold raised in *.
      destruct (predict (inl frame) type model_id m) as [[prediction|e] m'];
        cbn in *; [done|].
      destruct o as [e0|]; [|done]. injection Ho as ->.
      apply translate_error_not_caught.
    + destruct frames as [|frame rest]; [done|].
      destruct (predict_raised (inl frame) type model_id m) as [o Ho].
      unfold raised in *.
      destruct (predict (inl frame) type model_id m) as [[prediction|e] m'];
        cbn in *; [done|].
      destruct o as [e0|]; [|done]. injection Ho as ->.
      apply translate_error_not_caught.
Qed.

(** The translator changes nothing in what it has translated. *)
Lemma translate_error_idempotent e :
  translate_error (translate_error e) = translate_error e.
Proof.
  pose proof (translate_error_not_caught e) as Hcaught.
  by destruct (translate_error e).
Qed.

Lemma prefix_app needle after : String.prefix needle (needle +:+ after) = true.
Proof.
  induction needle as [|c needle IH]; [by destruct after|].
  change (String c needle +:+ after) with (String c (needle +:+ after)).
  cbn [String.prefix]. by destruct (ascii_dec c c).
Qed.

Lemma str_contains_prefix needle hay :
  String.prefix needle hay = true -> str_contains needle hay = true.
Proof.
  intros Hprefix. destruct hay; cbn [str_contains]; by rewrite Hprefix.
Qed.

Lemma str_contains_app needle before after :
  str_contains needle (before +:+ needle +:+ after) = true.
Proof.
  induction before as [|c before IH].
  - change ("" +:+ needle +:+ after) with (needle +:+ after).
    apply str_contains_prefix, prefix_app.
  - change (String c before +:+ needle +:+ after)
      with (String c (before +:+ needle +:+ after)).
    cbn [str_contains]. rewrite IH. apply orb_true_r.
Qed.

(** X5: the test on the content type is a substring test: a [Content-Type]
    that holds [application/json] anywhere, for instance followed by a
    character set, makes the message of the translated error the [message]
    entry of the JSON object of the body. *)
Theorem json_content_type_with_parameters (description : string)
    (response : Response) (before after : string)
    (document : gmap string pyval) :
  headers_get "Content-Type" response
  = Some (before +:+ "application/json" +:+ after) ->
  json response = Some (PDict document) ->
  translate_error (HTTPError description response)
  = HTTPCallErrorError description (status_code response)
      (default PNone (document !! "message")).
Proof.
  intros Hheader Hjson. cbn. unfold translate_http_error.
  rewrite Hheader, str_contains_app. unfold response_json.
  by rewrite Hjson.
Qed.

(** ** Failed exchanges *)

Lemma exchange_loop_failure norm requests results m earlier rq e :
  sent (snd (exchange_loop norm requests results m))
  = sent m ++ earlier ++ [rq] ->
  exchange_failure (server (sent m ++ earlier) rq) = Some e ->
  fst (exchange_loop norm requests results m) = Raise e.
Proof.
  intros Hsent Hfailure. unfold exchange_failure in Hfailure.
  destruct (exchange_loop_run norm requests results m) as [_ Hrun].
  destruct (fst (exchange_loop norm requests results m)) as [out|e'].
  - destruct Hrun as [Hsent' (documents & _ & Hanswered)].
    rewrite Hsent' in Hsent. apply app_inv_head in Hsent. subst requests.
    apply answered_last in Hanswered as (response & Hserver & Hstatus).
    by rewrite Hserver, Hstatus in Hfailure.
  - destruct Hrun as (earlier' & rq' & later & _ & Hsent' & Hturn).
    rewrite Hsent' in Hsent. apply app_inv_head in Hsent.
    apply app_inj_tail in Hsent as [-> ->].
    unfold turn in Hturn.
    destruct (server (sent m ++ earlier) rq) as [response|e0]; cbn in Hturn.
    + destruct (raise_for_status response); cbn in Hturn; congruence.
    + congruence.
Qed.

Lemma predict_failure m input type model_id earlier rq e :
  sent (snd (predict input type model_id m)) = sent m ++ earlier ++ [rq] ->
  exchange_failure (server (sent m ++ earlier) rq) = Some e ->
  fst (predict input type model_id m) = Raise (translate_error e).
Proof.
  intros Hsent Hfailure.
  destruct (load_static_inference_input input) as [elements|e'] eqn:Hencoded.
  - destruct (client_mode (self m)) eqn:Hmode.
    + rewrite predict_new in * by done.
      rewrite (wrap_errors_finish _ _ _
                 (infer_from_new_api_run _ _ _ _ _ Hencoded)) in *.
      unfold finish in *. cbn [fst snd] in *.
      by rewrite (exchange_loop_failure _ _ _ _ _ _ _ Hsent Hfailure).
    + rewrite predict_legacy in * by done.
      destruct (py_or model_id (selected_model (self m))) as [id|] eqn:Hid.
      * destruct (str_split "/" id) as [|dataset [|version [|]]] eqn:Hsplit.
        3: { rewrite (wrap_errors_finish _ _ _
                   (infer_from_legacy_api_run _ _ _ _ _ _ _
                      Hencoded Hid Hsplit)) in *.
             unfold finish in *. cbn [fst snd] in *.
             by rewrite (exchange_loop_failure _ _ _ _ _ _ _ Hsent Hfailure). }
        all: exfalso; revert Hsent; unfold infer_from_legacy_api; run;
          rewrite Hencoded, Hid; cbn; rewrite Hsplit; cbn;
          apply nothing_sent.
      * exfalso. revert Hsent. unfold infer_from_legacy_api. run.
        rewrite Hencoded, Hid. cbn. apply nothing_sent.
  - exfalso. revert Hsent. unfold predict, infer_from_legacy_api,
      infer_from_new_api. run.
    destruct (client_mode (self m)); cbn; rewrite Hencoded; cbn;
      apply nothing_sent.
Qed.

Lemma one_exchange_failure {A} (issued : Request) (k : Response -> M A)
    m earlier rq e :
  (forall r m1, sent (snd (k r m1)) = sent m1) ->
  let call :=
    wrap_errors (let* r := send issued in
                 let* _ := lift (raise_for_status r) in
                 k r) in
  sent (snd (call m)) = sent m ++ earlier ++ [rq] ->
  exchange_failure (server (sent m ++ earlier) rq) = Some e ->
  fst (call m) = Raise (translate_error e).
Proof.
  intros Hk call Hsent Hfailure. subst call.
  assert (sent (snd (wrap_errors
                       (let* r := send issued in
                        let* _ := lift (raise_for_status r) in
                        k r) m)) = sent m ++ [issued]) as Hissued.
  { run. destruct (server (sent m) issued) as [r|]; cbn; [|done].
    destruct (raise_for_status r); cbn; [|done].
    specialize (Hk r {| self := self m; sent := sent m ++ [issued] |}).
    by destruct (k r _) as [[] ?]. }
  rewrite Hissued in Hsent. apply one_sent in Hsent as [-> ->].
  rewrite app_nil_r in Hfailure. unfold exchange_failure in Hfailure. run.
  destruct (server (sent m) issued) as [r|e0]; cbn; [|congruence].
  destruct (raise_for_status r); cbn; congruence.
Qed.

(** The exception a call ends with when the exchange of the last request
    it sent failed: what [wrap_errors] makes of the exception of that
    exchange. *)
Lemma run_call_failure call m earlier rq e :
  sent (snd (run_call call m)) = sent m ++ earlier ++ [rq] ->
  exchange_failure (server (sent m ++ earlier) rq) = Some e ->
  fst (run_call call m) = Some (translate_error e).
Proof.
  intros Hsent Hfailure.
  assert (forall A (r : result A * Machine) e,
             fst r = Raise e -> fst (raised r) = Some e) as Hraised.
  { intros A r e' Hr. unfold raised. cbn. by rewrite Hr. }
  destruct call as [| |model_id type set_as_default|model_id| |input type id|g];
    cbn [run_call] in *; apply Hraised;
    change (sent (snd (raised ?r))) with (sent (snd r)) in Hsent.
  - eapply (one_exchange_failure _
              (fun r => let* response_payload := lift (response_json r) in
                        lift (ServerInfo_from_dict response_payload)));
      [|exact Hsent|done].
    intros r m1. run. by destruct (response_json r).
  - eapply (one_exchange_failure _
              (fun r => let* response_payload := lift (response_json r) in
                        lift (RegisteredModels_from_dict response_payload)));
      [|exact Hsent|done].
    intros r m1. run. by destruct (response_json r).
  - eapply (one_exchange_failure _
              (fun r =>
                 let* response_payload := lift (response_json r) in
                 let* _ := (if set_as_default
                            then set_self (set_selection (self m)
                                             (Some model_id) type)
                            else ret tt) in
                 lift (RegisteredModels_from_dict response_payload)));
      [|exact Hsent|done].
    intros r m1. run. destruct (response_json r); [|done].
    by destruct set_as_default.
  - eapply (one_exchange_failure _
              (fun r =>
                 let* response_payload := lift (response_json r) in
                 let* _ := (if decide (Some model_id = selected_model (self m))
                            then set_self (set_selection (self m) None
                                             OBJECT_DETECTION)
                            else ret tt) in
                 lift (RegisteredModels_from_dict response_payload)));
      [|exact Hsent|done].
    intros r m1. run. destruct (response_json r); [|done].
    by destruct (decide _).
  - eapply (one_exchange_failure _
              (fun r =>
                 let* response_payload := lift (response_json r) in
                 let* _ := set_self (set_selection (self m) None
                                       OBJECT_DETECTION) in
                 lift (RegisteredModels_from_dict response_payload)));
      [|exact Hsent|done].
    intros r m1. run. by destruct (response_json r).
  - by eapply predict_failure.
  - cbn [fst snd] in *. unfold next, resume in *.
    destruct g as [input_uri type model_id|frames type model_id|].
    + destruct (load_stream_inference_input _ _) as [|frame rest];
        [by apply nothing_sent in Hsent|].
      pose proof (fun H => predict_failure m (inl frame) type model_id earlier
                             rq e H Hfailure) as Hpredict.
      destruct (predict (inl frame) type model_id m) as [[prediction|e'] m'];
        cbn [fst snd] in *; specialize (Hpredict Hsent); congruence.
    + destruct frames as [|frame rest];
        [by apply nothing_sent in Hsent|].
      pose proof (fun H => predict_failure m (inl frame) type model_id earlier
                             rq e H Hfailure) as Hpredict.
      destruct (predict (inl frame) type model_id m) as [[prediction|e'] m'];
        cbn [fst snd] in *; specialize (Hpredict Hsent); congruence.
    + by apply nothing_sent in Hsent.
Qed.

(** X6: when [requests] raises the built-in [ConnectionError] on the last
    request a call sent, the call raises [HTTPClientError], its message the
    text of that exception after [Error with server connection: ]. *)
Theorem connection_error_translated (call : Call) (m : Machine)
    (earlier : list Request) (rq : Request) (description : string) :
  sent (snd (run_call call m)) = sent m ++ earlier ++ [rq] ->
  server (sent m ++ earlier) rq = Raise (ConnectionError description) ->
  fst (run_call call m)
  = Some (HTTPClientError ("Error with server connection: " +:+ description)).
Proof.
  intros Hsent Hserver.
  rewrite (run_call_failure _ _ _ _ (ConnectionError description) Hsent);
    [done|].
  unfold exchange_failure. by rewrite Hserver.
Qed.

(** X7: when [requests] raises, on the last request a call sent, an
    exception that is neither an [HTTPError] nor a built-in
    [ConnectionError] (one of its own connection or time-out errors, for
    instance), the call raises that exception as it is: it is not turned
    into an error of the client. *)
Theorem other_exceptions_pass_through (call : Call) (m : Machine)
    (earlier : list Request) (rq : Request) (e : exn) :
  sent (snd (run_call call m)) = sent m ++ earlier ++ [rq] ->
  server (sent m ++ earlier) rq = Raise e ->
  is_caught e = false ->
  fst (run_call call m) = Some e.
Proof.
  intros Hsent Hserver Hclass.
  rewrite (run_call_failure _ _ _ _ e Hsent);
    [by destruct e|].
  unfold exchange_failure. by rewrite Hserver.
Qed.

(** ** The requests of an inference call *)

(** The payload is one dictionary for the whole loop, but each turn
    overwrites the only entry a turn writes: every request carries the
    payload built before the loop, with its own image. *)
Lemma new_requests_fresh c type payload elements :
  new_requests c (NEW_INFERENCE_ENDPOINTS (default (model_type c) type))
    payload elements
  = map (fun element =>
           mkRequest POST
             (api_url c
              +:+ NEW_INFERENCE_ENDPOINTS (default (model_type c) type))
             DEFAULT_HEADERS ∅
             (Some (PDict (<[ "image" := PDict {[ "type" := PStr "base64";
                                                  "value" := PStr element ]} ]>
                             payload)))
             None)
      elements.
Proof.
  revert payload.
  induction elements as [|element rest IH]; intros payload; [done|].
  cbn [new_requests map]. f_equal. rewrite IH.
  apply map_ext. intros element'. by rewrite insert_insert_eq.
Qed.

Lemma take_middle {A} (earlier : list A) x later :
  take (S (length earlier)) (earlier ++ x :: later) = earlier ++ [x].
Proof. induction earlier as [|y earlier IH]; cbn; [done|by rewrite IH]. Qed.

(** A loop sends its requests in order and stops at the first exchange
    that fails or whose response it cannot use. *)
Lemma exchange_loop_sent norm requests results m :
  exists k,
    (k <= length requests)%nat
    /\ sent (snd (exchange_loop norm requests results m))
       = sent m ++ take k requests
    /\ (forall out,
          fst (exchange_loop norm requests results m) = Ok out ->
          k = length requests).
Proof.
  destruct (exchange_loop_run norm requests results m) as [_ Hrun].
  destruct (fst (exchange_loop norm requests results m)) as [out|e].
  - destruct Hrun as [Hsent _]. exists (length requests).
    split; [done|]. split; [by rewrite firstn_all|done].
  - destruct Hrun as (earlier & rq & later & -> & Hsent & _).
    exists (S (length earlier)). split; [rewrite length_app; cbn; lia|].
    split; [by rewrite take_middle|done].
Qed.

(** When a loop raises, the request sent last is the one whose turn
    raised, and every request before it was answered and gave its
    document: the loop stops at the first turn that fails. *)
Lemma exchange_loop_stops norm requests results m e :
  fst (exchange_loop norm requests results m) = Raise e ->
  exists earlier rq later documents,
    requests = earlier ++ rq :: later
    /\ sent (snd (exchange_loop norm requests results m))
       = sent m ++ earlier ++ [rq]
    /\ answered norm (sent m) earlier documents
    /\ turn norm (server (sent m ++ earlier) rq) = Raise e.
Proof.
  revert results m.
  induction requests as [|rq rest IH]; intros results m; [done|].
  cbn [exchange_loop]. run.
  destruct (server (sent m) rq) as [response|e0] eqn:Hserver; cbn.
  - destruct (raise_for_status response) as [[]|e0] eqn:Hstatus; cbn.
    + destruct (norm response) as [document|e0] eqn:Hnorm; cbn.
      * set (m1 := {| self := self m; sent := sent m ++ [rq] |}).
        intros Hraise.
        destruct (IH (results ++ [document]) m1 Hraise)
          as (earlier & rq' & later & documents & -> & Hsent & Hanswered
              & Hturn).
        exists (rq :: earlier), rq', later, (document :: documents).
        cbn in Hsent, Hanswered, Hturn.
        split; [done|]. split; [by rewrite Hsent, <- !app_assoc|].
        split; [by econstructor|]. by rewrite <- app_assoc in Hturn.
      * intros [= <-]. exists [], rq, rest, [].
        rewrite app_nil_r. unfold turn. rewrite Hserver. cbn.
        rewrite Hstatus. cbn.
        split; [done|]. split; [done|]. split; [constructor|done].
    + intros [= <-]. exists [], rq, rest, [].
      rewrite app_nil_r. unfold turn. rewrite Hserver. cbn.
      rewrite Hstatus.
      split; [done|]. split; [done|]. split; [constructor|done].
  - intros [= <-]. exists [], rq, rest, [].
    rewrite app_nil_r. unfold turn. rewrite Hserver.
    split; [done|]. split; [done|]. split; [constructor|done].
Qed.

(** The same for a loop whose requests are made from the encoded inputs
    one by one. *)
Lemma mapped_loop_stops norm (request : string -> Request) elements m :
  (forall out,
      fst (exchange_loop norm (map request elements) [] m) = Ok out ->
      sent (snd (exchange_loop norm (map request elements) [] m))
      = sent m ++ map request elements)
  /\ (forall e,
        fst (exchange_loop norm (map request elements) [] m) = Raise e ->
        exists before element after documents,
          elements = before ++ element :: after
          /\ sent (snd (exchange_loop norm (map request elements) [] m))
             = sent m ++ map request (before ++ [element])
          /\ answered norm (sent m) (map request before) documents
          /\ turn norm (server (sent m ++ map request before)
                          (request element))
             = Raise e).
Proof.
  split.
  - intros out Hout.
    destruct (exchange_loop_run norm (map request elements) [] m)
      as [_ Hrun].
    rewrite Hout in Hrun. by destruct Hrun.
  - intros e Hraise.
    destruct (exchange_loop_stops _ _ _ _ _ Hraise)
      as (earlier & rq & later & documents & Hsplit & Hsent & Hanswered
          & Hturn).
    apply map_eq_app in Hsplit as (before & rest & -> & <- & Hrest).
    apply map_eq_cons in Hrest as (element & after & -> & <- & _).
    exists before, element, after, documents.
    split; [done|]. split; [|done].
    by rewrite Hsent, map_app.
Qed.

(** The requests of a call in new mode. *)
Lemma new_mode_sent (m : Machine)
    (input : ImagesReference + list ImagesReference)
    (type : option ModelType) (model_id : option string)
    (elements : list string) :
  client_mode (self m) = NEW ->
  load_static_inference_input input = Ok elements ->
  exists k,
    (k <= length elements)%nat
    /\ sent (snd (predict input type model_id m))
       = sent m ++ map (new_request (self m) type model_id) (take k elements)
    /\ (forall r,
          fst (predict input type model_id m) = Ok r ->
          k = length elements).
Proof.
  intros Hmode Hencoded. rewrite predict_new by done.
  rewrite (wrap_errors_finish _ _ _
             (infer_from_new_api_run _ _ _ _ _ Hencoded)).
  unfold finish. cbn [fst snd].
  rewrite new_requests_fresh.
  match goal with
  | |- context [exchange_loop ?norm ?requests [] m] =>
      destruct (exchange_loop_sent norm requests [] m)
        as (k & Hk & Hsent & Hall)
  end.
  rewrite length_map in Hk, Hall.
  exists k. split; [done|]. split.
  - rewrite Hsent. by rewrite firstn_map.
  - intros r Hr.
    destruct (fst (exchange_loop _ _ [] m)) as [out|e] eqn:Hloop; [|done].
    by apply (Hall out).
Qed.

(** X8: a call in new mode whose input encodes sends one request for each
    encoded input, in their order, and stops at the first turn that fails.
    When it returns, it has sent the requests of all the inputs.  When it
    raises, it has sent the requests of the inputs up to one of them and
    no other: the requests before that one were answered and gave their
    documents, its own turn raised, and the call raises what [wrap_errors]
    makes of that exception.  Every request is a [POST] to the endpoint of
    the model category in use, whatever the identifier and the call
    parameters, and its body is the payload built before the loop with the
    image of its own input. *)
Theorem new_mode_requests (m : Machine)
    (input : ImagesReference + list ImagesReference)
    (type : option ModelType) (model_id : option string)
    (elements : list string) :
  client_mode (self m) = NEW ->
  load_static_inference_input input = Ok elements ->
  let request := new_request (self m) type model_id in
  (forall r,
      fst (predict input type model_id m) = Ok r ->
      sent (snd (predict input type model_id m))
      = sent m ++ map request elements)
  /\ (forall e,
        fst (predict input type model_id m) = Raise e ->
        exists before element after documents e0,
          elements = before ++ element :: after
          /\ sent (snd (predict input type model_id m))
             = sent m ++ map request (before ++ [element])
          /\ answered (new_result (self m)) (sent m) (map request before)
               documents
          /\ turn (new_result (self m))
               (server (sent m ++ map request before) (request element))
             = Raise e0
          /\ e = translate_error e0).
Proof.
  intros Hmode Hencoded request. rewrite predict_new by done.
  rewrite (wrap_errors_finish _ _ _
             (infer_from_new_api_run _ _ _ _ _ Hencoded)).
  unfold finish. cbn [fst snd]. rewrite new_requests_fresh.
  fold (new_payload (self m) type model_id).
  change (fun element => mkRequest POST _ DEFAULT_HEADERS ∅ _ None)
    with request.
  destruct (mapped_loop_stops (new_result (self m)) request elements m)
    as [Hall Hstop].
  destruct (fst (exchange_loop _ (map request elements) [] m))
    as [out|e0] eqn:Hloop.
  - split; [intros r _; by apply (Hall out)|done].
  - split; [done|]. intros e [= <-].
    destruct (Hstop e0 eq_refl)
      as (before & element & after & documents & ? & ? & ? & ?).
    by exists before, element, after, documents, e0.
Qed.

Lemma str_split_one sep s segment :
  str_split sep s = [segment] -> s = segment.
Proof.
  revert segment. induction s as [|c rest IH]; intros segment; cbn.
  - by intros [= <-].
  - destruct (decide (c = sep)).
    + intros [= _ Hrest]. pose proof (str_split_length sep rest) as Hlen.
      by rewrite Hrest in Hlen.
    + pose proof (str_split_length sep rest) as Hlen.
      destruct (str_split sep rest) as [|seg segs]; [done|].
      intros [= <- ->]. by rewrite (IH seg).
Qed.

(** Splitting in two and joining with the separator gives the string
    back. *)
Lemma str_split_two_join s dataset version :
  str_split "/" s = [dataset; version] -> dataset +:+ "/" +:+ version = s.
Proof.
  revert dataset. induction s as [|c rest IH]; intros dataset; cbn; [done|].
  destruct (decide (c = "/"%char)) as [->|].
  - intros [= <- Hrest]. by rewrite (str_split_one _ _ _ Hrest).
  - pose proof (str_split_length "/" rest) as Hlen.
    destruct (str_split "/" rest) as [|seg segs]; [done|].
    intros [= <- ->].
    change (String c seg +:+ "/" +:+ version)
      with (String c (seg +:+ "/" +:+ version)).
    by rewrite (IH seg).
Qed.

(** X9: a call in legacy mode whose input encodes and whose identifier
    holds exactly one [/] sends one request for each encoded input, in
    their order, and stops at the first turn that fails.  When it returns,
    it has sent the requests of all the inputs.  When it raises, it has
    sent the requests of the inputs up to one of them and no other: the
    requests before that one were answered and gave their documents, its
    own turn raised, and the call raises what [wrap_errors] makes of that
    exception.  Every request is a [POST] to the address of the server
    followed by [/] and the identifier as it was given, with the legacy
    call parameters and the credential as query parameters and the encoded
    input as body. *)
Theorem legacy_mode_requests (m : Machine)
    (input : ImagesReference + list ImagesReference)
    (type : option ModelType) (model_id : option string)
    (elements : list string) (id : string) :
  client_mode (self m) = LEGACY ->
  load_static_inference_input input = Ok elements ->
  py_or model_id (selected_model (self m)) = Some id ->
  count_char "/" id = 1%nat ->
  let request := fun element =>
    mkRequest POST (api_url (self m) +:+ "/" +:+ id) DEFAULT_HEADERS
      (to_legacy_call_parameters (inference_configuration (self m))
       ∪ {[ "api_key" := PStr (api_key (self m)) ]})
      None (Some element) in
  (forall r,
      fst (predict input type model_id m) = Ok r ->
      sent (snd (predict input type model_id m))
      = sent m ++ map request elements)
  /\ (forall e,
        fst (predict input type model_id m) = Raise e ->
        exists before element after documents e0,
          elements = before ++ element :: after
          /\ sent (snd (predict input type model_id m))
             = sent m ++ map request (before ++ [element])
          /\ answered (legacy_result (self m)) (sent m) (map request before)
               documents
          /\ turn (legacy_result (self m))
               (server (sent m ++ map request before) (request element))
             = Raise e0
          /\ e = translate_error e0).
Proof.
  intros Hmode Hencoded Hid Hcount request. rewrite predict_legacy by done.
  pose proof (str_split_length "/" id) as Hlen. rewrite Hcount in Hlen.
  destruct (str_split "/" id) as [|dataset [|version [|]]] eqn:Hsplit;
    try done.
  rewrite (wrap_errors_finish _ _ _
             (infer_from_legacy_api_run _ _ _ _ _ _ _ Hencoded Hid Hsplit)).
  unfold finish. cbn [fst snd]. unfold legacy_request, legacy_params.
  rewrite (str_split_two_join _ _ _ Hsplit).
  change (fun element => mkRequest POST _ DEFAULT_HEADERS _ None _)
    with request.
  destruct (mapped_loop_stops (legacy_result (self m)) request elements m)
    as [Hall Hstop].
  destruct (fst (exchange_loop _ (map request elements) [] m))
    as [out|e0] eqn:Hloop.
  - split; [intros r _; by apply (Hall out)|done].
  - split; [done|]. intros e [= <-].
    destruct (Hstop e0 eq_refl)
      as (before & element & after & documents & ? & ? & ? & ?).
    by exists before, element, after, documents, e0.
Qed.

(** ** Identifiers and documents at the edges *)

(** X10: in new mode an empty per-call identifier counts as no identifier:
    the call does exactly what it does when the identifier is left out, so
    the session default, if any, is the one sent. *)
Theorem empty_identifier_is_omitted (m : Machine)
    (input : ImagesReference + list ImagesReference)
    (type : option ModelType) :
  client_mode (self m) = NEW ->
  predict input type (Some "") m = predict input type None m.
Proof. intros Hmode. by rewrite !predict_new. Qed.

(** X11: a response whose body is JSON but not a JSON object (an array, a
    string, a number): the legacy protocol hands the value over as the
    result of its input, the new protocol raises an [AttributeError]. *)
Theorem non_object_document (c : InferenceHTTPClient) (response : Response)
    (v : pyval) :
  json response = Some v ->
  (forall document, v <> PDict document) ->
  response_contains_jpeg_image response = false ->
  legacy_result c response = Ok v
  /\ new_result c response
     = Raise (AttributeError
                ("'" +:+ py_type_name v +:+ "' object has no attribute 'get'")).
Proof.
  intros Hjson Hshape Hjpeg. unfold legacy_result, new_result, response_json.
  rewrite Hjpeg, Hjson. split; [done|]. cbn.
  destruct v; try done. by destruct (Hshape entries).
Qed.

(** ** Calls one after the other *)

Lemma load_model_sets_default m m1 registry model_id type :
  load_model model_id type true m = (Ok registry, m1) ->
  self m1 = set_selection (self m) (Some model_id) type.
Proof.
  unfold load_model. run.
  destruct (server (sent m) _) as [response|]; cbn; [|done].
  destruct (raise_for_status response); cbn; [|done].
  destruct (response_json response); cbn; [|done].
  destruct (RegisteredModels_from_dict _); cbn; [|done].
  by intros [= _ <-].
Qed.

Lemma unload_model_clears_default m m1 registry model_id :
  unload_model model_id m = (Ok registry, m1) ->
  selected_model (self m) = Some model_id ->
  self m1 = cleared (self m).
Proof.
  unfold unload_model. run. intros Hrun Hdefault. revert Hrun.
  destruct (server (sent m) _) as [response|]; cbn; [|done].
  destruct (raise_for_status response); cbn; [|done].
  destruct (response_json response); cbn; [|done].
  destruct (decide _) as [Heq|Hne]; cbn; [|by rewrite Hdefault in Hne].
  destruct (RegisteredModels_from_dict _); cbn; [|done].
  by intros [= _ <-].
Qed.

Lemma unload_all_models_clears_default m m1 registry :
  unload_all_models m = (Ok registry, m1) -> self m1 = cleared (self m).
Proof.
  unfold unload_all_models. run.
  destruct (server (sent m) _) as [response|]; cbn; [|done].
  destruct (raise_for_status response); cbn; [|done].
  destruct (response_json response); cbn; [|done].
  destruct (RegisteredModels_from_dict _); cbn; [|done].
  by intros [= _ <-].
Qed.

Lemma legacy_call_without_identifier m input type model_id elements :
  client_mode (self m) = LEGACY ->
  load_static_inference_input input = Ok elements ->
  py_or model_id (selected_model (self m)) = None ->
  predict input type model_id m
  = (Raise (AttributeError "'NoneType' object has no attribute 'split'"), m).
Proof.
  intros Hmode Hencoded Hid. rewrite predict_legacy by done.
  unfold infer_from_legacy_api. run. rewrite Hencoded, Hid. cbn.
  by destruct m.
Qed.

(** X12: after a [load_model] with [set_as_default] that returned, a call
    in new mode that names neither identifier nor category sends its
    requests to the endpoint of the category given to [load_model], with
    the loaded identifier as [model_id] (under the call parameters, which
    are merged over it). *)
Theorem loaded_default_is_used (m m1 : Machine) (registry : RegisteredModels)
    (model_id : string) (type : ModelType)
    (input : ImagesReference + list ImagesReference)
    (elements : list string) :
  load_model model_id type true m = (Ok registry, m1) ->
  client_mode (self m) = NEW ->
  load_static_inference_input input = Ok elements ->
  exists k,
    (k <= length elements)%nat
    /\ sent (snd (predict input None None m1))
       = sent m1
         ++ map (fun element =>
                   mkRequest POST
                     (api_url (self m) +:+ NEW_INFERENCE_ENDPOINTS type)
                     DEFAULT_HEADERS ∅
                     (Some (PDict
                              (<[ "image" :=
                                    PDict {[ "type" := PStr "base64";
                                             "value" := PStr element ]} ]>
                                 (to_api_call_parameters
                                    (inference_configuration (self m)) NEW type
                                  ∪ {[ "api_key" := PStr (api_key (self m));
                                       "model_id" := PStr model_id ]}))))
                     None)
              (take k elements)
    /\ (forall r,
          fst (predict input None None m1) = Ok r -> k = length elements).
Proof.
  intros Hload Hmode Hencoded.
  pose proof (load_model_sets_default _ _ _ _ _ Hload) as Hdefault.
  assert (client_mode (self m1) = NEW) as Hmode1 by by rewrite Hdefault.
  destruct (new_mode_sent m1 input None None elements Hmode1 Hencoded)
    as (k & Hk & Hsent & Hall).
  exists k. split; [done|]. split; [|done].
  rewrite Hsent. unfold new_request, new_payload. rewrite Hdefault. cbn.
  by rewrite Hmode.
Qed.

(** X13: after the default model is unloaded, by [unload_model] with its
    identifier or by [unload_all_models], a legacy call that names no
    identifier raises the [AttributeError] of a missing identifier and
    sends nothing. *)
Theorem unloaded_default_is_gone (m m1 : Machine) (registry : RegisteredModels)
    (model_id : string)
    (input : ImagesReference + list ImagesReference)
    (type : option ModelType) (elements : list string) :
  (unload_model model_id m = (Ok registry, m1)
   /\ selected_model (self m) = Some model_id)
  \/ unload_all_models m = (Ok registry, m1) ->
  client_mode (self m) = LEGACY ->
  load_static_inference_input input = Ok elements ->
  predict input type None m1
  = (Raise (AttributeError "'NoneType' object has no attribute 'split'"), m1).
Proof.
  intros Hunload Hmode Hencoded.
  assert (self m1 = cleared (self m)) as Hself.
  { destruct Hunload as [[Hunload Hdefault]|Hunload].
    - by apply (unload_model_clears_default _ _ _ _ Hunload).
    - by apply (unload_all_models_clears_default _ _ _ Hunload). }
  apply (legacy_call_without_identifier m1 input type None elements);
    [|done|]; by rewrite Hself.
Qed.

(** ** Decorating twice *)

(** X15: decorating twice is decorating once: what [wrap_errors] lets out
    it would let through again unchanged. *)
Theorem wrap_errors_idempotent {A} (f : M A) (m : Machine) :
  wrap_errors (wrap_errors f) m = wrap_errors f m.
Proof.
  unfold wrap_errors. destruct (f m) as [[a|e] m']; [done|].
  by rewrite translate_error_idempotent.
Qed.

End Coverage.

(** ** The paths of the model cache *)

Lemma string_app_inv_head (s t1 t2 : string) :
  s +:+ t1 = s +:+ t2 -> t1 = t2.
Proof.
  induction s as [|c s IH]; [done|].
  change (String c s +:+ t1) with (String c (s +:+ t1)).
  change (String c s +:+ t2) with (String c (s +:+ t2)).
  intros [= Heq]. by apply IH.
Qed.

Lemma string_app_assoc (a b c : string) :
  (a +:+ b) +:+ c = a +:+ b +:+ c.
Proof.
  induction a as [|x a IH]; [done|].
  change ((String x a +:+ b) +:+ c) with (String x ((a +:+ b) +:+ c)).
  change (String x a +:+ b +:+ c) with (String x (a +:+ b +:+ c)).
  by rewrite IH.
Qed.

Lemma string_app_empty (a : string) : a +:+ "" = a.
Proof.
  induction a as [|x a IH]; [done|].
  change (String x a +:+ "") with (String x (a +:+ "")). by rewrite IH.
Qed.

Lemma os_path_join_relative a b :
  startswith_sep b = false ->
  os_path_join a b
  = a +:+ (if bool_decide (a = "") || endswith_sep a then "" else "/") +:+ b.
Proof.
  intros Hb. unfold os_path_join. rewrite Hb.
  by destruct (bool_decide (a = "") || endswith_sep a).
Qed.

(** X16: a file name that starts with [/] is taken as it is: the path of
    the file in the cache is the name itself, outside the cache directory
    and whatever the model; likewise for the directory of a model whose
    identifier starts with [/]. *)
Theorem absolute_names_leave_the_cache (MODEL_CACHE_DIR name : string)
    (model_id : option string) :
  startswith_sep name = true ->
  get_cache_file_path MODEL_CACHE_DIR name model_id = name
  /\ get_cache_dir MODEL_CACHE_DIR (Some name) = name.
Proof.
  intros Hname. unfold get_cache_file_path, get_cache_dir, os_path_join.
  by rewrite Hname.
Qed.

Lemma endswith_sep_app s t : t <> "" -> endswith_sep (s +:+ t) = endswith_sep t.
Proof.
  intros Ht. induction s as [|c s IH]; [done|].
  change (String c s +:+ t) with (String c (s +:+ t)).
  cbn [endswith_sep]. rewrite IH.
  destruct (s +:+ t) eqn:Happ; [|done].
  destruct s; [done|discriminate].
Qed.

(** X18: the layout of the cache.  With a cache directory and a model
    identifier that are not empty and do not end with [/], and an
    identifier and a file name that do not start with [/], the file of a
    model is at [MODEL_CACHE_DIR/model_id/file], and the file of no model
    at [MODEL_CACHE_DIR/file]. *)
Theorem cache_layout (MODEL_CACHE_DIR id file : string) :
  MODEL_CACHE_DIR <> "" ->
  endswith_sep MODEL_CACHE_DIR = false ->
  id <> "" ->
  startswith_sep id = false ->
  endswith_sep id = false ->
  startswith_sep file = false ->
  get_cache_file_path MODEL_CACHE_DIR file (Some id)
  = MODEL_CACHE_DIR +:+ "/" +:+ id +:+ "/" +:+ file
  /\ get_cache_file_path MODEL_CACHE_DIR file None
     = MODEL_CACHE_DIR +:+ "/" +:+ file.
Proof.
  intros Hdir Hdir_end Hid Hid_start Hid_end Hfile.
  unfold get_cache_file_path, get_cache_dir.
  rewrite !os_path_join_relative by done.
  rewrite (bool_decide_eq_false_2 _ Hdir), Hdir_end. cbn [orb].
  split; [|done].
  assert (MODEL_CACHE_DIR +:+ "/" +:+ id <> "") as Hne.
  { by destruct MODEL_CACHE_DIR. }
  rewrite (bool_decide_eq_false_2 _ Hne).
  rewrite !endswith_sep_app, Hid_end by (done || by destruct id).
  cbn [orb]. by rewrite !string_app_assoc.
Qed.

Lemma startswith_sep_app s t : s <> "" -> startswith_sep (s +:+ t) = startswith_sep s.
Proof. by destruct s. Qed.

Lemma os_path_join_end a b :
  b <> "" ->
  os_path_join a b <> "" /\ endswith_sep (os_path_join a b) = endswith_sep b.
Proof.
  intros Hb. unfold os_path_join.
  destruct (startswith_sep b); [done|].
  destruct (bool_decide (a = "") || endswith_sep a).
  - split; [by destruct a, b|by apply endswith_sep_app].
  - split; [by destruct a|].
    rewrite endswith_sep_app; [by apply (endswith_sep_app "/")|done].
Qed.

Lemma os_path_join_slash a b :
  b <> "" -> os_path_join a (b +:+ "/") = os_path_join a b +:+ "/".
Proof.
  intros Hb. unfold os_path_join. rewrite startswith_sep_app by done.
  destruct (startswith_sep b); [done|].
  destruct (bool_decide (a = "") || endswith_sep a);
    by rewrite !string_app_assoc.
Qed.

Lemma os_path_join_after_slash a b :
  a <> "" -> endswith_sep a = false ->
  os_path_join (a +:+ "/") b = os_path_join a b.
Proof.
  intros Ha Hend. unfold os_path_join.
  destruct (startswith_sep b); [done|].
  rewrite (endswith_sep_app a "/") by done. cbn [endswith_sep].
  rewrite orb_true_r, (bool_decide_eq_false_2 _ Ha), Hend. cbn [orb].
  by rewrite string_app_assoc.
Qed.

(** X17: two different model identifiers can address the same cache: an
    identifier that is not empty and does not end with [/] and the same
    identifier followed by [/] give every file the same path. *)
Theorem trailing_slash_same_cache (MODEL_CACHE_DIR id file : string) :
  id <> "" ->
  endswith_sep id = false ->
  id +:+ "/" <> id
  /\ get_cache_file_path MODEL_CACHE_DIR file (Some (id +:+ "/"))
     = get_cache_file_path MODEL_CACHE_DIR file (Some id).
Proof.
  intros Hid Hend. split.
  - intros Heq. rewrite <- (string_app_empty id) in Heq at 2.
    by apply string_app_inv_head in Heq.
  - unfold get_cache_file_path, get_cache_dir.
    rewrite os_path_join_slash by done.
    destruct (os_path_join_end MODEL_CACHE_DIR id Hid) as [Hne Hjoin].
    apply os_path_join_after_slash; [done|by rewrite Hjoin].
Qed.

(** X19: an empty model identifier addresses the files of no model: the
    path of a file is the same with the identifier empty and with it left
    out. *)
Theorem empty_model_is_no_model (MODEL_CACHE_DIR file : string) :
  get_cache_file_path MODEL_CACHE_DIR file (Some "")
  = get_cache_file_path MODEL_CACHE_DIR file None.
Proof.
  unfold get_cache_file_path, get_cache_dir.
  destruct (startswith_sep file) eqn:Hfile;
    [by unfold os_path_join; rewrite Hfile|].
  rewrite !os_path_join_relative by done.
  destruct (decide (MODEL_CACHE_DIR = "")) as [->|Hdir]; [done|].
  rewrite (bool_decide_eq_false_2 _ Hdir). cbn [orb].
  destruct (endswith_sep MODEL_CACHE_DIR) eqn:Hend.
  - change ("" +:+ "") with "".
    by rewrite string_app_empty, Hend, orb_true_r.
  - change ("/" +:+ "") with "/".
    rewrite (endswith_sep_app MODEL_CACHE_DIR "/") by done.
    cbn [endswith_sep]. rewrite orb_true_r. by rewrite string_app_assoc.
Qed.

(** * The further properties on concrete runs *)

Lemma json_content_type_with_parameters_witness :
  translate_error (HTTPError "HTTP error" rejected)
  = HTTPCallErrorError "HTTP error" 422 (PStr "bad image").
Proof.
  rewrite (json_content_type_with_parameters "HTTP error"
             rejected "" "; charset=utf-8" rejection eq_refl eq_refl).
  vm_compute. reflexivity.
Defined.

Lemma connection_error_translated_witness :
  fst (@run_call E_refused UnloadAllModels
         (sample_machine (always (Raise (ConnectionError "refused"))) NEW None))
  = Some (HTTPClientError "Error with server connection: refused").
Proof.
  apply (@connection_error_translated E_refused UnloadAllModels
           (sample_machine (always (Raise (ConnectionError "refused"))) NEW
              None)
           [] (mkRequest POST "http://host/model/clear" ∅ ∅ None None)
           "refused" eq_refl eq_refl).
Defined.

Lemma other_exceptions_pass_through_witness :
  fst (@run_call E_unreachable GetServerInfo
         (sample_machine (scripted []) NEW None))
  = Some (OtherException "requests.exceptions.ConnectionError"
            "connection refused").
Proof.
  apply (@other_exceptions_pass_through E_unreachable GetServerInfo
           (sample_machine (scripted []) NEW None)
           [] (mkRequest GET "http://host/info" ∅ ∅ None None)
           (OtherException "requests.exceptions.ConnectionError"
              "connection refused")
           eq_refl eq_refl eq_refl).
Defined.

Lemma new_mode_requests_witness :
  sent (snd (@predict E_accepting (inr ["i1"; "i2"]) None (Some "a/1")
               (sample_machine accepting NEW None)))
  = map (@new_request E_accepting (self (sample_machine accepting NEW None))
           None (Some "a/1"))
      ["i1"; "i2"]
  /\ exists before element after,
      ["i1"; "i2"; "i3"] = before ++ element :: after
      /\ sent (snd (@predict E_failing_second (inr ["i1"; "i2"; "i3"]) None
                      (Some "a/1") (sample_machine failing_second NEW None)))
         = map (@new_request E_failing_second
                  (self (sample_machine failing_second NEW None))
                  None (Some "a/1"))
             (before ++ [element]).
Proof.
  split.
  - apply (proj1 (@new_mode_requests E_accepting
                    (sample_machine accepting NEW None)
                    (inr ["i1"; "i2"]) None (Some "a/1") ["i1"; "i2"]
                    eq_refl eq_refl)
             (inr [PDict ∅; PDict ∅]) eq_refl).
  - destruct (proj2 (@new_mode_requests E_failing_second
                       (sample_machine failing_second NEW None)
                       (inr ["i1"; "i2"; "i3"]) None (Some "a/1")
                       ["i1"; "i2"; "i3"] eq_refl eq_refl)
                (HTTPCallErrorError "HTTP error" 503 (PStr "try later"))
                eq_refl)
      as (before & element & after & documents & e0 & Hsplit & Hsent & _).
    exists before, element, after. split; [exact Hsplit|exact Hsent].
Defined.

Lemma legacy_mode_requests_witness :
  map req_url
    (sent (snd (@predict E_accepting (inr ["i1"; "i2"]) None (Some "a/1")
                  (sample_machine accepting LEGACY None))))
  = ["http://host/a/1"; "http://host/a/1"]
  /\ exists before element after,
      ["i1"; "i2"; "i3"] = before ++ element :: after
      /\ map req_data
           (sent (snd (@predict E_failing_second (inr ["i1"; "i2"; "i3"]) None
                         (Some "a/1")
                         (sample_machine failing_second LEGACY None))))
         = map Some (before ++ [element]).
Proof.
  split.
  - rewrite (proj1 (@legacy_mode_requests E_accepting
                      (sample_machine accepting LEGACY None)
                      (inr ["i1"; "i2"]) None (Some "a/1") ["i1"; "i2"] "a/1"
                      eq_refl eq_refl eq_refl eq_refl)
               (inr [PDict ∅; PDict ∅]) eq_refl).
    reflexivity.
  - destruct (proj2 (@legacy_mode_requests E_failing_second
                       (sample_machine failing_second LEGACY None)
                       (inr ["i1"; "i2"; "i3"]) None (Some "a/1")
                       ["i1"; "i2"; "i3"] "a/1"
                       eq_refl eq_refl eq_refl eq_refl)
                (HTTPCallErrorError "HTTP error" 503 (PStr "try later"))
                eq_refl)
      as (before & element & after & documents & e0 & Hsplit & Hsent & _).
    exists before, element, after. split; [exact Hsplit|].
    rewrite Hsent. cbn [sent sample_machine app].
    rewrite map_map. reflexivity.
Defined.

Lemma empty_identifier_is_omitted_witness :
  @predict E_accepting (inl "img") None (Some "")
    (sample_machine accepting NEW (Some "a/1"))
  = @predict E_accepting (inl "img") None None
      (sample_machine accepting NEW (Some "a/1")).
Proof.
  apply (@empty_identifier_is_omitted E_accepting
           (sample_machine accepting NEW (Some "a/1")) (inl "img") None
           eq_refl).
Defined.

Lemma non_object_document_witness :
  @legacy_result E_accepting (self (sample_machine accepting LEGACY None))
    (json_response 200 (PList []))
  = Ok (PList [])
  /\ @new_result E_accepting (self (sample_machine accepting NEW None))
       (json_response 200 (PList []))
     = Raise (AttributeError "'list' object has no attribute 'get'").
Proof.
  split.
  - apply (@non_object_document E_accepting
             (self (sample_machine accepting LEGACY None))
             (json_response 200 (PList [])) (PList []) eq_refl
             ltac:(discriminate) eq_refl).
  - apply (@non_object_document E_accepting
             (self (sample_machine accepting NEW None))
             (json_response 200 (PList [])) (PList []) eq_refl
             ltac:(discriminate) eq_refl).
Defined.

Lemma loaded_default_is_used_witness :
  map req_url
    (sent (snd (@predict E_accepting (inl "img") None None
                  (snd (@load_model E_accepting "a/1" CLASSIFICATION true
                          (sample_machine accepting NEW None))))))
  = ["http://host/model/add"; "http://host/infer/classification"].
Proof.
  destruct (@loaded_default_is_used E_accepting
              (sample_machine accepting NEW None)
              (snd (@load_model E_accepting "a/1" CLASSIFICATION true
                      (sample_machine accepting NEW None)))
              (PDict ∅) "a/1" CLASSIFICATION (inl "img") ["img"]
              eq_refl eq_refl eq_refl)
    as (k & _ & Hsent & Hall).
  rewrite Hsent, (Hall (inl (PDict ∅)) eq_refl). reflexivity.
Defined.

Lemma unloaded_default_is_gone_witness :
  fst (@predict E_accepting (inl "img") None None
         (snd (@unload_model E_accepting "a/1"
                 (sample_machine accepting LEGACY (Some "a/1")))))
  = Raise (AttributeError "'NoneType' object has no attribute 'split'").
Proof.
  rewrite (@unloaded_default_is_gone E_accepting
             (sample_machine accepting LEGACY (Some "a/1"))
             (snd (@unload_model E_accepting "a/1"
                     (sample_machine accepting LEGACY (Some "a/1"))))
             (PDict ∅) "a/1" (inl "img") None ["img"]
             (or_introl (conj eq_refl eq_refl)) eq_refl eq_refl).
  reflexivity.
Defined.

Lemma absolute_names_leave_the_cache_witness :
  get_cache_file_path "/tmp/cache" "/etc/hosts" (Some "a/1") = "/etc/hosts".
Proof.
  apply (proj1 (absolute_names_leave_the_cache "/tmp/cache" "/etc/hosts"
                  (Some "a/1") eq_refl)).
Defined.

Lemma trailing_slash_same_cache_witness :
  get_cache_file_path "/tmp/cache" "weights.onnx" (Some "a/1/")
  = get_cache_file_path "/tmp/cache" "weights.onnx" (Some "a/1").
Proof.
  apply (proj2 (trailing_slash_same_cache "/tmp/cache" "a/1" "weights.onnx"
                  ltac:(discriminate) eq_refl)).
Defined.

Lemma cache_layout_witness :
  get_cache_file_path "/tmp/cache" "weights.onnx" (Some "a/1")
  = "/tmp/cache/a/1/weights.onnx"
  /\ get_cache_file_path "/tmp/cache" "weights.onnx" None
     = "/tmp/cache/weights.onnx".
Proof.
  apply (cache_layout "/tmp/cache" "a/1" "weights.onnx");
    (reflexivity || discriminate).
Defined.
